(** * AddStocks.js: the "Add Stock" form and its stock/product reconciliation

    Shallow embedding of [src/components/AddStocks.js].  The React state of
    the component is a record, every [setX] call is a state update inside a
    small state-and-log monad, and the HTTP collaborator ([axios]) is an
    oracle whose every use is written to the log, so that "no request is
    issued" is a statement about the log. *)

From Stdlib Require Import ZArith List String Ascii Bool Lia DecimalString.
Import ListNotations.

Local Open Scope string_scope.
Local Open Scope Z_scope.

(** ** The JavaScript primitives the component relies on *)

Module JS.

(** A JavaScript number as the component meets it: [NaN], an infinity, or
    a finite double whose value is an integer.  A [Finite z] produced here
    always holds a [z] that a double represents; the integers the
    collaborator sends are taken to be such values too.  The negative zero
    that [parseInt] gives on inputs such as ["-0"] is represented by
    [Finite 0]: the source only compares ([<], [===]), adds and prints
    numbers, and those operations do not tell the two zeros apart. *)
Inductive number : Type :=
| NaN
| Finite (z : Z)
| Infinity (negative : bool).

(** [Number.isSafeInteger]: the integers below 2^53 in absolute value,
    among which every integer is a double and arithmetic is exact. *)
Definition safeInteger (z : Z) : Prop := Z.abs z < 9007199254740992.

Definition isSafe (z : Z) : bool := Z.abs z <? 9007199254740992.

(** [Number.MAX_VALUE], (2^53 - 1) * 2^971. *)
Definition maxValue : Z := Z.shiftl 9007199254740991 971.

(** A positive integer rounded to the nearest integer with a significand
    of 53 bits, ties to the even significand. *)
Definition roundSignificand (n : Z) : Z :=
  let e := Z.log2 n in
  if e <=? 52 then n
  else
    let sh := e - 52 in
    let q := Z.shiftr n sh in
    let r := n - Z.shiftl q sh in
    let half := Z.shiftl 1 (sh - 1) in
    let q' := if (half <? r) || ((r =? half) && Z.odd q) then q + 1 else q in
    Z.shiftl q' sh.

(** The Number value of a mathematical integer: the nearest double, an
    infinity when the rounded magnitude exceeds [maxValue]. *)
Definition ofInteger (z : Z) : number :=
  if z =? 0 then Finite 0
  else
    let m := roundSignificand (Z.abs z) in
    if maxValue <? m then Infinity (z <? 0) else Finite (Z.sgn z * m).

Definition isNaN (n : number) : bool :=
  match n with NaN => true | _ => false end.

(** [n < k] on numbers for a finite [k]: any comparison with [NaN] is
    false. *)
Definition lt (n : number) (k : Z) : bool :=
  match n with
  | NaN => false
  | Finite z => z <? k
  | Infinity negative => negative
  end.

(** [a === b] for a finite integer [a] and a number [b]. *)
Definition strict_eq (a : Z) (b : number) : bool :=
  match b with Finite z => a =? z | _ => false end.

(** [a + b] for a finite integer [a] and a number [b]: the sum rounded to
    a double. *)
Definition add (a : Z) (b : number) : number :=
  match b with
  | NaN => NaN
  | Finite z => ofInteger (a + z)
  | Infinity negative => Infinity negative
  end.

(** Truthiness of a string: only the empty string is falsy. *)
Definition truthy (s : string) : bool :=
  match s with EmptyString => false | String _ _ => true end.

(** [a || b] on strings. *)
Definition or_else (a b : string) : string := if truthy a then a else b.

(** Characters are code units below 256; among them the white space that
    [parseInt] strips is TAB, LF, VT, FF, CR, SP and NBSP. *)
Definition isWhiteSpace (c : ascii) : bool :=
  let n := N_of_ascii c in
  (N.leb 9 n && N.leb n 13) || N.eqb n 32 || N.eqb n 160.

Fixpoint trimStart (s : string) : string :=
  match s with
  | String c r => if isWhiteSpace c then trimStart r else s
  | EmptyString => s
  end.

(** The value of a character as a digit of the radix [R], if it is one. *)
Definition digitValue (R : Z) (c : ascii) : option Z :=
  let n := Z.of_N (N_of_ascii c) in
  let v := if (48 <=? n) && (n <=? 57) then Some (n - 48)
           else if (97 <=? n) && (n <=? 122) then Some (n - 87)
           else if (65 <=? n) && (n <=? 90) then Some (n - 55)
           else None in
  match v with
  | Some d => if d <? R then Some d else None
  | None => None
  end.

(** The integer written by the longest prefix of radix-[R] digits; [acc]
    is [None] until the first digit has been read. *)
Fixpoint digits (R : Z) (s : string) (acc : option Z) : option Z :=
  match s with
  | String c r =>
      match digitValue R c with
      | Some d =>
          digits R r (Some (match acc with Some a => a * R + d | None => d end))
      | None => acc
      end
  | EmptyString => acc
  end.

(** [parseInt(s)] with no radix argument: leading white space, an optional
    sign, an optional [0x]/[0X] prefix, then the longest run of digits;
    [NaN] when that run is empty, else the Number value of the signed
    integer the run writes.  (Past twenty significant decimal digits the
    language lets an engine read the later digits as zeros; the integer is
    read exactly here.) *)
Definition parseInt (s : string) : number :=
  let s0 := trimStart s in
  let '(sign, s1) :=
    match s0 with
    | String "-" r => (-1, r)
    | String "+" r => (1, r)
    | _ => (1, s0)
    end in
  let '(R, s2) :=
    match s1 with
    | String "0" (String "x" r) => (16, r)
    | String "0" (String "X" r) => (16, r)
    | _ => (10, s1)
    end in
  match digits R s2 None with
  | Some m => ofInteger (sign * m)
  | None => NaN
  end.

(** The decimal digits of an integer. *)
Definition decimal (z : Z) : string := NilZero.string_of_int (Z.to_int z).

(** Whether the integer [v] has the positive double [x] as its Number
    value. *)
Definition roundsTo (v x : Z) : bool :=
  match ofInteger v with Finite y => y =? x | _ => false end.

(** The integer with the fewest significant digits whose Number value is
    the positive double [x]: multiples of the unit [u], a power of ten, are
    tried below and above [x], then the unit is divided by ten; of two that
    fit the nearer is taken, the one with the even last digit when they are
    equally near. *)
Fixpoint shortest (fuel : nat) (x u : Z) : Z :=
  match fuel with
  | O => x
  | S fuel' =>
      let lo := (x / u) * u in
      let hi := lo + u in
      match roundsTo lo x, roundsTo hi x with
      | true, true =>
          if x - lo <? hi - x then lo
          else if hi - x <? x - lo then hi
          else if Z.even (x / u) then lo else hi
      | true, false => lo
      | false, true => hi
      | false, false => shortest fuel' x (u / 10)
      end
  end.

Fixpoint dropZeros (rev_digits : list ascii) : list ascii :=
  match rev_digits with
  | "0"%char :: r => dropZeros r
  | _ => rev_digits
  end.

(** The significant digits of a decimal text: its trailing zeros removed. *)
Definition significant (ds : string) : string :=
  string_of_list_ascii (rev (dropZeros (rev (list_ascii_of_string ds)))).

(** The text of a positive integer-valued double: every digit of a safe
    integer; otherwise the shortest digits that read back as the same
    double, followed by zeros up to twenty-one digits and in exponent form
    beyond. *)
Definition positiveToString (x : Z) : string :=
  if isSafe x then decimal x
  else
    let d := String.length (decimal x) in
    let v := shortest d x (10 ^ (Z.of_nat d - 1)) in
    let ds := decimal v in
    let n := String.length ds in
    if Nat.leb n 21 then ds
    else
      match significant ds with
      | String c EmptyString =>
          String c ("e+" ++ decimal (Z.of_nat n - 1))
      | String c rest =>
          String c ("." ++ rest ++ "e+" ++ decimal (Z.of_nat n - 1))
      | EmptyString => ds
      end.

(** An integer-valued double inside a template literal. *)
Definition toString (z : Z) : string :=
  if z <? 0 then "-" ++ positiveToString (- z) else positiveToString z.

(** A possibly [undefined] integer inside a template literal. *)
Definition show (v : option Z) : string :=
  match v with Some z => toString z | None => "undefined" end.

End JS.

(** ** Data model *)

(** A stock record as the stock listing returns it. *)
Module Stock.
Record t := { id : Z; product_id : Z; quantity : Z }.
End Stock.

(** The [product] member of the product query's answer. *)
Record ProductRef := { product_ref_id : Z }.

(** The body of the write request, [stockData] in [handleSubmit]: the
    object handed to [axios.post], before it is serialised. *)
Module StockData.
Record t := { id : JS.number; product_id : JS.number; quantity : JS.number }.
End StockData.

(** What [handleSubmit] reads of the write's answer; a member that is
    [undefined] is [None]. *)
Record PostData := {
  previousQuantity : option Z;
  addedQuantity : option Z;
  newQuantity : option Z
}.

(** [formData]: the raw text of the three fields. *)
Record FormData := { stockId : string; productId : string; quantity : string }.

Definition emptyForm : FormData :=
  {| stockId := ""; productId := ""; quantity := "" |}.

(** The component's [useState] cells. *)
Record State := {
  formData : FormData;
  error : string;
  productError : string;
  loading : bool;
  currentStock : option Stock.t;
  stockIdExists : bool
}.

(** The initial values of the [useState] cells, lines 7-16. *)
Definition initialState : State :=
  {| formData := emptyForm; error := ""; productError := "";
     loading := false; currentStock := None; stockIdExists := false |}.

(** ** The HTTP collaborator *)

(** How an awaited request ends: the promise resolves with the data, or it
    rejects and control passes to the enclosing [catch]; [E] is what the
    handler reads of the thrown value. *)
Inductive Response (A E : Type) : Type :=
| Resolved (data : A)
| Thrown (err : E).
Arguments Resolved {A E} data.
Arguments Thrown {A E} err.

Record Api := {
  (** [GET /api/products?id=...]: [data.product], [None] when it is null. *)
  products_get : string -> Response (option ProductRef) unit;
  (** [GET /api/stocks] with [page] and [limit]: [data.stocks]. *)
  stocks_get : Z -> Z -> Response (list Stock.t) unit;
  (** [POST /api/stocks]: [response.data] ([None] when falsy), or the
      failure with [err.response?.data?.error]. *)
  stocks_post : StockData.t -> Response (option PostData) (option string)
}.

(** Everything the component does that is visible outside it. *)
Inductive Effect : Type :=
| GET_products (id : string)
| GET_stocks (page limit : Z)
| POST_stocks (body : StockData.t)
| OnSubmit (data : PostData)
| OnClose.

(** ** State updates and requests in sequence *)

Definition Act (A : Type) : Type := State -> A * State * list Effect.

Definition ret {A} (a : A) : Act A := fun st => (a, st, []).

Definition bind {A B} (m : Act A) (k : A -> Act B) : Act B :=
  fun st =>
    let '(a, st1, l1) := m st in
    let '(b, st2, l2) := k a st1 in
    (b, st2, (l1 ++ l2)%list).

Declare Scope act_scope.
Delimit Scope act_scope with act.
Notation "x <- m ;; k" := (bind m (fun x => k))
  (at level 61, m at next level, right associativity) : act_scope.
Notation "m ;; k" := (bind m (fun _ => k))
  (at level 61, right associativity) : act_scope.
Local Open Scope act_scope.

Definition get : Act State := fun st => (st, st, []).
Definition modify (f : State -> State) : Act unit := fun st => (tt, f st, []).
Definition emit (e : Effect) : Act unit := fun st => (tt, st, [e]).

Definition stateOf {A} (r : A * State * list Effect) : State := snd (fst r).
Definition logOf {A} (r : A * State * list Effect) : list Effect := snd r.

Definition setFormData (f : FormData -> FormData) : Act unit :=
  modify (fun st =>
    {| formData := f (formData st); error := error st;
       productError := productError st; loading := loading st;
       currentStock := currentStock st; stockIdExists := stockIdExists st |}).

Definition setError (v : string) : Act unit :=
  modify (fun st =>
    {| formData := formData st; error := v;
       productError := productError st; loading := loading st;
       currentStock := currentStock st; stockIdExists := stockIdExists st |}).

Definition setProductError (v : string) : Act unit :=
  modify (fun st =>
    {| formData := formData st; error := error st;
       productError := v; loading := loading st;
       currentStock := currentStock st; stockIdExists := stockIdExists st |}).

Definition setLoading (v : bool) : Act unit :=
  modify (fun st =>
    {| formData := formData st; error := error st;
       productError := productError st; loading := v;
       currentStock := currentStock st; stockIdExists := stockIdExists st |}).

Definition setCurrentStock (v : option Stock.t) : Act unit :=
  modify (fun st =>
    {| formData := formData st; error := error st;
       productError := productError st; loading := loading st;
       currentStock := v; stockIdExists := stockIdExists st |}).

Definition setStockIdExists (v : bool) : Act unit :=
  modify (fun st =>
    {| formData := formData st; error := error st;
       productError := productError st; loading := loading st;
       currentStock := currentStock st; stockIdExists := v |}).

Definition axios_get_products (api : Api) (id : string)
  : Act (Response (option ProductRef) unit) :=
  emit (GET_products id) ;; ret (products_get api id).

Definition axios_get_stocks (api : Api) (page limit : Z)
  : Act (Response (list Stock.t) unit) :=
  emit (GET_stocks page limit) ;; ret (stocks_get api page limit).

Definition axios_post_stocks (api : Api) (body : StockData.t)
  : Act (Response (option PostData) (option string)) :=
  emit (POST_stocks body) ;; ret (stocks_post api body).

(** ** The component *)

(** [{ ...prev, [name]: value }].  A key other than the three fields would
    be an extra member that nothing reads; the three fields keep their
    values. *)
Definition withField (name value : string) (prev : FormData) : FormData :=
  if String.eqb name "stockId" then
    {| stockId := value; productId := productId prev; quantity := quantity prev |}
  else if String.eqb name "productId" then
    {| stockId := stockId prev; productId := value; quantity := quantity prev |}
  else if String.eqb name "quantity" then
    {| stockId := stockId prev; productId := productId prev; quantity := value |}
  else prev.

(** The test on [name] at line 101. *)
Definition isField (name : string) : bool :=
  String.eqb name "stockId" || String.eqb name "productId"
  || String.eqb name "quantity".

(** [handleInputChange], lines 98-110; [name] and [value] are those of
    [e.target]. *)
Definition handleInputChange (name value : string) : Act unit :=
  if isField name && negb (String.eqb value "")
  then
    let num := JS.parseInt value in
    if JS.isNaN num || JS.lt num 0 then ret tt
    else setFormData (withField name value)
  else setFormData (withField name value).

(** The effect of lines 18-26 when [isOpen] has become true. *)
Definition openForm : Act unit :=
  setFormData (fun _ => emptyForm) ;;
  setError "" ;;
  setProductError "" ;;
  setCurrentStock None ;;
  setStockIdExists false.

(** Lines 38-40 and again 43-45: what both the null answer and the [catch]
    of the product query do before returning. *)
Definition productDoesNotExist : Act unit :=
  setProductError "Product ID does not exist" ;;
  setCurrentStock None.

(** Lines 79-87: the update preview, or the cleared form. *)
Definition previewOrClear (fd : FormData) (existingStock : option Stock.t)
  : Act unit :=
  match existingStock with
  | Some e =>
      if JS.strict_eq (Stock.product_id e) (JS.parseInt (productId fd)) then
        setCurrentStock (Some e) ;;
        setError ("Current stock quantity: " ++ JS.toString (Stock.quantity e)
                  ++ ". New quantity will be added to this.") ;;
        setProductError ""
      else
        setCurrentStock None ;; setError "" ;; setProductError ""
  | None =>
      setCurrentStock None ;; setError "" ;; setProductError ""
  end.

(** Lines 73-87, reached when the cross-assignment test of line 64 did not
    return. *)
Definition checkProductBinding (fd : FormData)
    (existingStock productStock : option Stock.t) : Act unit :=
  match productStock with
  | Some p =>
      if match existingStock with
         | None => true
         | Some e => negb (Stock.id e =? Stock.id p)
         end
      then
        setProductError ("Product ID " ++ productId fd ++ " already has Stock ID "
                         ++ JS.toString (Stock.id p)) ;;
        setCurrentStock None
      else previewOrClear fd existingStock
  | None => previewOrClear fd existingStock
  end.

(** Lines 57-58: [existingStock]. *)
Definition existingStockOf (fd : FormData) (stocks : list Stock.t) : option Stock.t :=
  if JS.truthy (stockId fd)
  then find (fun s => JS.strict_eq (Stock.id s) (JS.parseInt (stockId fd))) stocks
  else None.

(** Lines 59-60: [productStock]. *)
Definition productStockOf (fd : FormData) (stocks : list Stock.t) : option Stock.t :=
  if JS.truthy (productId fd)
  then find (fun s => JS.strict_eq (Stock.product_id s)
                        (JS.parseInt (productId fd))) stocks
  else None.

(** Lines 57-87: the decision taken on the listing's records. *)
Definition decideOnListing (fd : FormData) (stocks : list Stock.t) : Act unit :=
  let existingStock := existingStockOf fd stocks in
  let productStock := productStockOf fd stocks in
  match existingStock with
  | Some e =>
      setStockIdExists true ;;
      if JS.truthy (productId fd)
         && negb (JS.strict_eq (Stock.product_id e) (JS.parseInt (productId fd)))
      then
        setProductError ("Stock ID " ++ stockId fd
                         ++ " is already assigned to Product ID "
                         ++ JS.toString (Stock.product_id e)) ;;
        setCurrentStock None
      else checkProductBinding fd existingStock productStock
  | None =>
      setStockIdExists false ;;
      checkProductBinding fd existingStock productStock
  end.

(** Lines 49-91: the stock listing and the checks against it.  A listing
    that throws is caught by the outer [catch] of line 88. *)
Definition checkStockInformation (api : Api) (fd : FormData) : Act unit :=
  response <- axios_get_stocks api 1 100 ;;
  match response with
  | Thrown _ => setError "Error checking stock information"
  | Resolved stocks => decideOnListing fd stocks
  end.

(** [checkExistingStock], lines 29-92, run on the [formData] of the render
    that scheduled it. *)
Definition checkExistingStock (api : Api) : Act unit :=
  st <- get ;;
  let fd := formData st in
  if negb (JS.truthy (stockId fd)) && negb (JS.truthy (productId fd)) then ret tt
  else if JS.truthy (productId fd) then
    productResponse <- axios_get_products api (productId fd) ;;
    match productResponse with
    | Resolved (Some _) => checkStockInformation api fd
    | Resolved None => productDoesNotExist
    | Thrown _ => productDoesNotExist
    end
  else checkStockInformation api fd.

(** [validateForm], lines 151-160. *)
Definition validateForm : Act bool :=
  st <- get ;;
  let fd := formData st in
  if negb (JS.truthy (stockId fd)) || negb (JS.truthy (productId fd))
     || negb (JS.truthy (quantity fd))
  then setError "All fields are required" ;; ret false
  else if JS.truthy (productError st) then ret false
  else ret true.

(** [handleSubmit], lines 112-149. *)
Definition handleSubmit (api : Api) : Act unit :=
  valid <- validateForm ;;
  if negb valid then ret tt
  else
    setLoading true ;;
    st <- get ;;
    let fd := formData st in
    let stockData :=
      {| StockData.id := JS.parseInt (stockId fd);
         StockData.product_id := JS.parseInt (productId fd);
         StockData.quantity := JS.parseInt (quantity fd) |} in
    response <- axios_post_stocks api stockData ;;
    match response with
    | Resolved (Some data) =>
        match previousQuantity data with
        | Some _ =>
            setError ("Successfully updated stock. Previous: "
                      ++ JS.show (previousQuantity data) ++ ", Added: "
                      ++ JS.show (addedQuantity data) ++ ", New Total: "
                      ++ JS.show (newQuantity data))
        | None => setError "Stock added successfully"
        end ;;
        emit (OnSubmit data) ;;
        emit OnClose ;;
        setFormData (fun _ => emptyForm) ;;
        setCurrentStock None ;;
        setError ""
    | Resolved None => ret tt
    | Thrown msg =>
        setError (JS.or_else (match msg with Some m => m | None => "" end)
                             "Error processing your request")
    end ;;
    setLoading false.

(** ** What the component renders *)

(** The panel of lines 230-242. *)
Record StockPanel := {
  current_units : Z;                    (* Current stock: ... units *)
  after_adding : option JS.number       (* After adding: ... units, when shown *)
}.

Definition renderStockPanel (st : State) : option StockPanel :=
  match currentStock st with
  | Some s =>
      Some {| current_units := Stock.quantity s;
              after_adding :=
                if JS.truthy (quantity (formData st))
                then Some (JS.add (Stock.quantity s)
                             (JS.parseInt (JS.or_else (quantity (formData st)) "0")))
                else None |}
  | None => None
  end.

(** The message of lines 244-248. *)
Definition renderError (st : State) : option string :=
  match currentStock st with
  | None => if JS.truthy (error st) then Some (error st) else None
  | Some _ => None
  end.

(** The message of lines 209-213. *)
Definition renderProductError (st : State) : option string :=
  if JS.truthy (productError st) then Some (productError st) else None.

(** The submit button, lines 259-266. *)
Definition submitDisabled (st : State) : bool :=
  loading st || negb (String.eqb (productError st) "").

Definition submitLabel (st : State) : string :=
  if loading st then "Processing..."
  else match currentStock st with
       | Some _ => "Add to Stock"
       | None => "Create Stock"
       end.

(** ** The state read as a reconciliation result *)

Inductive ReconciliationResult : Type :=
| Create (record : StockData.t)
| Update (existingId previousQuantity : Z) (addedQuantity newQuantity : JS.number)
| Rejected (reason : string).

(** The classification the component shows: a rejection while
    [productError] is set (the submit button is disabled, line 261); else a
    top-up when a current stock is held (label "Add to Stock", the panel of
    lines 230-242 with its sum); else a creation (label "Create Stock")
    of the record [handleSubmit] would post (lines 118-122). *)
Definition outcome (st : State) : ReconciliationResult :=
  let fd := formData st in
  if JS.truthy (productError st) then Rejected (productError st)
  else match currentStock st with
       | Some s =>
           Update (Stock.id s) (Stock.quantity s)
                  (JS.parseInt (quantity fd))
                  (JS.add (Stock.quantity s)
                          (JS.parseInt (JS.or_else (quantity fd) "0")))
       | None =>
           Create {| StockData.id := JS.parseInt (stockId fd);
                     StockData.product_id := JS.parseInt (productId fd);
                     StockData.quantity := JS.parseInt (quantity fd) |}
       end.

(** The data model's uniqueness conditions on a stock listing: one record
    per id and at most one record per product. *)
Definition uniqueStocks (stocks : list Stock.t) : Prop :=
  NoDup (map Stock.id stocks) /\ NoDup (map Stock.product_id stocks).

(** What [parseInt] makes of the text passes the test of line 103: not
    [NaN] and not below zero, that is a non-negative integer, or [Infinity]
    for a run of digits beyond the range of a double. *)
Definition nonnegativeParse (v : string) : Prop :=
  (exists n, JS.parseInt v = JS.Finite n /\ 0 <= n)
  \/ JS.parseInt v = JS.Infinity false.

(** A number that is not [NaN] and not negative: a non-negative integer or
    [Infinity]. *)
Definition nonnegativeNumber (n : JS.number) : Prop :=
  match n with
  | JS.Finite z => 0 <= z
  | JS.Infinity false => True
  | _ => False
  end.

(** Every non-empty field passes the test of line 103. *)
Definition fieldsParse (fd : FormData) : Prop :=
  (stockId fd <> "" -> nonnegativeParse (stockId fd)) /\
  (productId fd <> "" -> nonnegativeParse (productId fd)) /\
  (quantity fd <> "" -> nonnegativeParse (quantity fd)).

(** ** The integer data model *)

(** A number within the range where doubles are exact: [NaN] (an empty or
    unreadable field) or a safe integer. *)
Definition safeNumber (n : JS.number) : Prop :=
  match n with
  | JS.NaN => True
  | JS.Finite z => JS.safeInteger z
  | JS.Infinity _ => False
  end.

Definition safeStock (s : Stock.t) : Prop :=
  JS.safeInteger (Stock.id s) /\ JS.safeInteger (Stock.product_id s)
  /\ JS.safeInteger (Stock.quantity s).

(** The candidate and the listing within that range: what the three
    fields parse to, and every number of every record. *)
Definition safeInput (fd : FormData) (stocks : list Stock.t) : Prop :=
  safeNumber (JS.parseInt (stockId fd))
  /\ safeNumber (JS.parseInt (productId fd))
  /\ safeNumber (JS.parseInt (quantity fd))
  /\ Forall safeStock stocks.

Definition isDecimalDigit (c : ascii) : bool :=
  let n := Z.of_N (N_of_ascii c) in (48 <=? n) && (n <=? 57).

Fixpoint literalDigits (s : string) (acc : Z) : option Z :=
  match s with
  | EmptyString => Some acc
  | String c r =>
      if isDecimalDigit c
      then literalDigits r (acc * 10 + (Z.of_N (N_of_ascii c) - 48))
      else None
  end.

(** The specification's reading of a field: a non-negative integer
    literal, a non-empty run of decimal digits, and the integer it
    writes. *)
Definition integerLiteral (s : string) : option Z :=
  match s with
  | EmptyString => None
  | String _ _ => literalDigits s 0
  end.

(** ** The debounce effect under the host's timers (lines 28, 94-96) *)

Module Debounce.

(** A pending [setTimeout(checkExistingStock, 500)]: its id, the time at
    which it is due, and the [formData] its closure holds. *)
Record Timer := { timer_id : nat; due : nat; captured : FormData }.

(** The mounted component on the event loop.  [scheduled] and [ran] are
    the history of every timer ever set and of every timer whose callback
    was invoked. *)
Record Mounted := {
  ui : State;
  now : nat;
  next_id : nat;
  timers : list Timer;
  cleanup : option nat;
  scheduled : list Timer;
  ran : list Timer
}.

Definition delay : nat := 500%nat.

(** [clearTimeout(id)]. *)
Definition clearTimeout (id : nat) (m : Mounted) : Mounted :=
  {| ui := ui m; now := now m; next_id := next_id m;
     timers := filter (fun t => negb (Nat.eqb (timer_id t) id)) (timers m);
     cleanup := cleanup m; scheduled := scheduled m; ran := ran m |}.

(** The effect body, lines 94-95: set the timer and keep its id for the
    cleanup. *)
Definition runEffect (m : Mounted) : Mounted :=
  let t := {| timer_id := next_id m; due := (now m + delay)%nat;
              captured := formData (ui m) |} in
  {| ui := ui m; now := now m; next_id := S (next_id m);
     timers := (timers m ++ [t])%list;
     cleanup := Some (timer_id t);
     scheduled := (scheduled m ++ [t])%list; ran := ran m |}.

(** The cleanup returned at line 95. *)
Definition runCleanup (m : Mounted) : Mounted :=
  match cleanup m with
  | Some id => clearTimeout id m
  | None => m
  end.

(** The dependency array of line 96 compared between two renders. *)
Definition depsChanged (old new : FormData) : bool :=
  negb (String.eqb (stockId old) (stockId new))
  || negb (String.eqb (productId old) (productId new)).

(** A render with the new state: when a dependency changed, the previous
    effect is cleaned up and the effect runs again. *)
Definition render (st' : State) (m : Mounted) : Mounted :=
  let m' := {| ui := st'; now := now m; next_id := next_id m;
               timers := timers m; cleanup := cleanup m;
               scheduled := scheduled m; ran := ran m |} in
  if depsChanged (formData (ui m)) (formData st')
  then runEffect (runCleanup m')
  else m'.

(** A timer's callback: [checkExistingStock] reads the [formData] that its
    closure holds, and its [setX] calls land in the current cells; none of
    them is [setFormData].  The answers of the two queries are taken to
    arrive before the next event. *)
Definition fire (api : Api) (st : State) (t : Timer) : State :=
  let st1 := stateOf (checkExistingStock api
                        {| formData := captured t; error := error st;
                           productError := productError st; loading := loading st;
                           currentStock := currentStock st;
                           stockIdExists := stockIdExists st |}) in
  {| formData := formData st; error := error st1;
     productError := productError st1; loading := loading st1;
     currentStock := currentStock st1; stockIdExists := stockIdExists st1 |}.

(** Time passes: every timer that has become due is removed and its
    callback invoked. *)
Definition elapse (api : Api) (d : nat) (m : Mounted) : Mounted :=
  let t' := (now m + d)%nat in
  let isDue := fun t => Nat.leb (due t) t' in
  {| ui := fold_left (fire api) (filter isDue (timers m)) (ui m);
     now := t'; next_id := next_id m;
     timers := filter (fun t => negb (isDue t)) (timers m);
     cleanup := cleanup m; scheduled := scheduled m;
     ran := (ran m ++ filter isDue (timers m))%list |}.

Inductive Event : Type :=
| Change (name value : string)   (* an input's onChange *)
| Open                           (* isOpen becomes true, lines 18-26 *)
| Elapse (d : nat).

Definition step (api : Api) (e : Event) (m : Mounted) : Mounted :=
  match e with
  | Change name value => render (stateOf (handleInputChange name value (ui m))) m
  | Open => render (stateOf (openForm (ui m))) m
  | Elapse d => elapse api d m
  end.

Definition run (api : Api) (es : list Event) (m : Mounted) : Mounted :=
  fold_left (fun m e => step api e m) es m.

(** The first render: the effect runs once on mount. *)
Definition mount : Mounted :=
  runEffect {| ui := initialState; now := 0%nat; next_id := 0%nat; timers := [];
               cleanup := None; scheduled := []; ran := [] |}.

(** What every reachable state of the event loop satisfies: at most one
    timer is pending, it is the newest ever set, the cleanup holds its id
    and its closure holds the current dependencies; no timer is due later
    than one delay from now; a timer that ran was due; and a timer set
    after one that ran is due at least one delay later. *)
Definition Inv (m : Mounted) : Prop :=
  (timers m = []
   \/ exists t, timers m = [t]
                /\ cleanup m = Some (timer_id t)
                /\ In t (scheduled m)
                /\ (forall t2, In t2 (scheduled m) -> (timer_id t2 <= timer_id t)%nat)
                /\ depsChanged (captured t) (formData (ui m)) = false)
  /\ (forall t, In t (scheduled m) ->
        (timer_id t < next_id m)%nat /\ (due t <= now m + delay)%nat)
  /\ (forall t, In t (ran m) -> (due t <= now m)%nat)
  /\ (forall t1 t2, In t1 (ran m) -> In t2 (scheduled m) ->
        (timer_id t1 < timer_id t2)%nat -> (due t1 + delay <= due t2)%nat).

End Debounce.

(** The state and log a run leaves when the product query finds nothing. *)
Definition productRejected (st : State) : unit * State * list Effect :=
  (tt,
   {| formData := formData st; error := error st;
      productError := "Product ID does not exist"; loading := loading st;
      currentStock := None; stockIdExists := stockIdExists st |},
   [GET_products (productId (formData st))]).

(** ** Fixtures for the examples *)

(** A backend holding the given products and stock records; its write
    endpoint is down. *)
Definition backend (products : list Z) (stocks : list Stock.t) : Api :=
  {| products_get := fun id =>
       Resolved (match JS.parseInt id with
                 | JS.Finite n => if existsb (Z.eqb n) products
                                  then Some {| product_ref_id := n |} else None
                 | _ => None
                 end);
     stocks_get := fun _ _ => Resolved stocks;
     stocks_post := fun _ => Thrown None |}.

(** The same backend with the product query failing in transport. *)
Definition productsDown (stocks : list Stock.t) : Api :=
  {| products_get := fun _ => Thrown tt;
     stocks_get := fun _ _ => Resolved stocks;
     stocks_post := fun _ => Thrown None |}.

(** The same backend with the stock listing failing in transport. *)
Definition stocksDown (products : list Z) : Api :=
  {| products_get := products_get (backend products []);
     stocks_get := fun _ _ => Thrown tt;
     stocks_post := fun _ => Thrown None |}.

(** The form holding the given three texts, nothing else set. *)
Definition filled (sid pid qty : string) : State :=
  {| formData := {| stockId := sid; productId := pid; quantity := qty |};
     error := ""; productError := ""; loading := false;
     currentStock := None; stockIdExists := false |}.

Definition stock101 : Stock.t :=
  {| Stock.id := 101; Stock.product_id := 1; Stock.quantity := 50 |}.
Definition stock102 : Stock.t :=
  {| Stock.id := 102; Stock.product_id := 2; Stock.quantity := 5 |}.

(** ** The event loop with submissions *)

Module Loop.

(** The events of the debounce, and a submission.  The state updates of
    one [handleSubmit] are rendered as one step: of them only the
    [setFormData] of line 139 can change a dependency of the effect. *)
Inductive Event : Type :=
| Edit (e : Debounce.Event)
| Submit (post : Api).

Definition step (api : Api) (e : Event) (m : Debounce.Mounted)
  : Debounce.Mounted :=
  match e with
  | Edit e' => Debounce.step api e' m
  | Submit post =>
      Debounce.render (stateOf (handleSubmit post (Debounce.ui m))) m
  end.

Definition run (api : Api) (es : list Event) (m : Debounce.Mounted)
  : Debounce.Mounted :=
  fold_left (fun m e => step api e m) es m.

(** The timers that ran and the pending ones carry pairwise distinct ids,
    all below the next id, and were all scheduled. *)
Definition distinctIds (m : Debounce.Mounted) : Prop :=
  NoDup (map Debounce.timer_id (Debounce.ran m ++ Debounce.timers m))
  /\ (forall t, In t (Debounce.ran m ++ Debounce.timers m) ->
        (Debounce.timer_id t < Debounce.next_id m)%nat
        /\ In t (Debounce.scheduled m)).

End Loop.

(** ** The run of [checkExistingStock] by cases *)

(** The return points of lines 29-92. *)
Inductive Verdict : Type :=
| VIdle                                      (* line 30 *)
| VProductMissing                            (* lines 37-40 and 42-45 *)
| VListingFailed                             (* lines 88-91 *)
| VCrossAssigned (e : Stock.t)               (* lines 64-67 *)
| VBoundElsewhere (found : bool) (p : Stock.t) (* lines 73-76 *)
| VPreview (e : Stock.t)                     (* lines 79-82 *)
| VCleared (found : bool).                   (* lines 83-86 *)

(** The return point reached on a fetched listing; [found] tells whether
    line 63 or line 70 was passed. *)
Definition verdictOnListing (fd : FormData) (stocks : list Stock.t) : Verdict :=
  match existingStockOf fd stocks with
  | Some e =>
      if JS.truthy (productId fd)
         && negb (JS.strict_eq (Stock.product_id e) (JS.parseInt (productId fd)))
      then VCrossAssigned e
      else
        match productStockOf fd stocks with
        | Some p =>
            if negb (Stock.id e =? Stock.id p) then VBoundElsewhere true p
            else if JS.strict_eq (Stock.product_id e) (JS.parseInt (productId fd))
                 then VPreview e else VCleared true
        | None =>
            if JS.strict_eq (Stock.product_id e) (JS.parseInt (productId fd))
            then VPreview e else VCleared true
        end
  | None =>
      match productStockOf fd stocks with
      | Some p => VBoundElsewhere false p
      | None => VCleared false
      end
  end.

Definition verdictAfterProduct (api : Api) (fd : FormData) : Verdict :=
  match stocks_get api 1 100 with
  | Resolved stocks => verdictOnListing fd stocks
  | Thrown _ => VListingFailed
  end.

Definition verdict (api : Api) (fd : FormData) : Verdict :=
  if negb (JS.truthy (stockId fd)) && negb (JS.truthy (productId fd)) then VIdle
  else if JS.truthy (productId fd) then
    match products_get api (productId fd) with
    | Resolved (Some _) => verdictAfterProduct api fd
    | Resolved None => VProductMissing
    | Thrown _ => VProductMissing
    end
  else verdictAfterProduct api fd.

(** The cells as the [setX] calls on the way to a return point leave them. *)
Definition applyVerdict (fd : FormData) (v : Verdict) (st : State) : State :=
  match v with
  | VIdle => st
  | VProductMissing =>
      {| formData := formData st; error := error st;
         productError := "Product ID does not exist"; loading := loading st;
         currentStock := None; stockIdExists := stockIdExists st |}
  | VListingFailed =>
      {| formData := formData st; error := "Error checking stock information";
         productError := productError st; loading := loading st;
         currentStock := currentStock st; stockIdExists := stockIdExists st |}
  | VCrossAssigned e =>
      {| formData := formData st; error := error st;
         productError := "Stock ID " ++ stockId fd
                         ++ " is already assigned to Product ID "
                         ++ JS.toString (Stock.product_id e);
         loading := loading st; currentStock := None; stockIdExists := true |}
  | VBoundElsewhere found p =>
      {| formData := formData st; error := error st;
         productError := "Product ID " ++ productId fd ++ " already has Stock ID "
                         ++ JS.toString (Stock.id p);
         loading := loading st; currentStock := None; stockIdExists := found |}
  | VPreview e =>
      {| formData := formData st;
         error := "Current stock quantity: " ++ JS.toString (Stock.quantity e)
                  ++ ". New quantity will be added to this.";
         productError := ""; loading := loading st;
         currentStock := Some e; stockIdExists := true |}
  | VCleared found =>
      {| formData := formData st; error := ""; productError := "";
         loading := loading st; currentStock := None; stockIdExists := found |}
  end.

(** The requests on the way to a return point. *)
Definition requestsOf (api : Api) (fd : FormData) : list Effect :=
  if negb (JS.truthy (stockId fd)) && negb (JS.truthy (productId fd)) then []
  else if JS.truthy (productId fd) then
    match products_get api (productId fd) with
    | Resolved (Some _) => [GET_products (productId fd); GET_stocks 1 100]
    | _ => [GET_products (productId fd)]
    end
  else [GET_stocks 1 100].

(** ** The component under its events *)

(** A run of [checkExistingStock] whose closure holds the form data [fd]:
    it reads [fd], and its [setX] calls land in the current cells; none of
    them is [setFormData]. *)
Definition landPreview (api : Api) (fd : FormData) (st : State) : State :=
  let st1 := stateOf (checkExistingStock api
                        {| formData := fd; error := error st;
                           productError := productError st; loading := loading st;
                           currentStock := currentStock st;
                           stockIdExists := stockIdExists st |}) in
  {| formData := formData st; error := error st1;
     productError := productError st1; loading := loading st1;
     currentStock := currentStock st1; stockIdExists := stockIdExists st1 |}.

(** What can happen to the mounted component; the collaborator's answers
    may differ from one event to the next. *)
Inductive UiEvent : Type :=
| Typed (name value : string)              (* handleInputChange *)
| Opened                                   (* the effect of lines 18-26 *)
| Previewed (api : Api) (fd : FormData)    (* a run of checkExistingStock *)
| Submitted (api : Api).                   (* handleSubmit *)

Definition uiStep (st : State) (e : UiEvent) : State :=
  match e with
  | Typed name value => stateOf (handleInputChange name value st)
  | Opened => stateOf (openForm st)
  | Previewed api fd => landPreview api fd st
  | Submitted api => stateOf (handleSubmit api st)
  end.

Definition uiRun (es : list UiEvent) (st : State) : State :=
  fold_left uiStep es st.

(** The test of [validateForm], lines 152-158, as a boolean. *)
Definition formValid (st : State) : bool :=
  JS.truthy (stockId (formData st)) && JS.truthy (productId (formData st))
  && JS.truthy (quantity (formData st)) && negb (JS.truthy (productError st)).

(** [stockData], lines 118-122, as [handleSubmit] builds it from a state. *)
Definition postBody (st : State) : StockData.t :=
  {| StockData.id := JS.parseInt (stockId (formData st));
     StockData.product_id := JS.parseInt (productId (formData st));
     StockData.quantity := JS.parseInt (quantity (formData st)) |}.

Definition isPost (e : Effect) : bool :=
  match e with POST_stocks _ => true | _ => false end.

Definition isGet (e : Effect) : bool :=
  match e with GET_products _ | GET_stocks _ _ => true | _ => false end.

(** A backend whose write endpoint gives the stated answer. *)
Definition writeAnswering (answer : Response (option PostData) (option string))
  : Api :=
  {| products_get := fun _ => Resolved None;
     stocks_get := fun _ _ => Resolved [];
     stocks_post := fun _ => answer |}.

Definition toppedUp : PostData :=
  {| previousQuantity := Some 50; addedQuantity := Some 20;
     newQuantity := Some 70 |}.

(** * Properties *)

(** ** The primitives on sample inputs *)

Example parseInt_101 : JS.parseInt "101" = JS.Finite 101.
Proof. reflexivity. Qed.
Example parseInt_empty : JS.parseInt "" = JS.NaN.
Proof. reflexivity. Qed.
Example parseInt_prefix : JS.parseInt "12abc" = JS.Finite 12.
Proof. reflexivity. Qed.
Example parseInt_fraction : JS.parseInt "-0.5" = JS.Finite 0.
Proof. reflexivity. Qed.
Example parseInt_negative : JS.parseInt " -42" = JS.Finite (-42).
Proof. reflexivity. Qed.
Example parseInt_hex : JS.parseInt "0x1F" = JS.Finite 31.
Proof. reflexivity. Qed.
Example parseInt_dot : JS.parseInt ".5" = JS.NaN.
Proof. reflexivity. Qed.
Example toString_50 : JS.toString 50 = "50".
Proof. reflexivity. Qed.
Example toString_0 : JS.toString 0 = "0".
Proof. reflexivity. Qed.
Example parseInt_rounds : JS.parseInt "9007199254740993" = JS.Finite 9007199254740992.
Proof. reflexivity. Qed.
Example parseInt_rounds_to_even :
  JS.parseInt "9007199254740995" = JS.Finite 9007199254740996.
Proof. reflexivity. Qed.
Example parseInt_overflows :
  JS.parseInt (String.concat "" (repeat "9" 309)) = JS.Infinity false
  /\ JS.parseInt (String.concat "" ("-" :: repeat "9" 309)) = JS.Infinity true
  /\ JS.isNaN (JS.parseInt (String.concat "" (repeat "9" 308))) = false.
Proof. vm_compute. repeat split. Qed.
Example add_rounds : JS.add 50 (JS.Finite 9007199254740992) = JS.Finite 9007199254741042.
Proof. reflexivity. Qed.
Example toString_shortest :
  JS.toString 9007199254740992 = "9007199254740992"
  /\ JS.toString (2 ^ 64) = "18446744073709552000"
  /\ JS.toString (10 ^ 21) = "1e+21"
  /\ JS.toString (2 ^ 70) = "1.1805916207174113e+21"
  /\ JS.toString (- 2 ^ 70) = "-1.1805916207174113e+21"
  /\ JS.toString JS.maxValue = "1.7976931348623157e+308".
Proof. vm_compute. repeat split. Qed.

(** ** Unfolding the component's actions *)

Ltac run_act :=
  cbv beta iota delta
    [checkExistingStock checkStockInformation decideOnListing checkProductBinding
     previewOrClear
     productDoesNotExist validateForm handleSubmit handleInputChange
     axios_get_products axios_get_stocks axios_post_stocks
     setFormData setError setProductError setLoading setCurrentStock
     setStockIdExists bind ret get modify emit stateOf logOf];
  cbn [fst snd formData error productError loading currentStock
       stockIdExists stockId productId quantity app negb andb orb].

Lemma parseInt_some_truthy (s : string) (n : Z) :
  JS.parseInt s = JS.Finite n -> JS.truthy s = true.
Proof. destruct s; [discriminate | reflexivity]. Qed.

Lemma or_else_truthy (a b : string) : JS.truthy a = true -> JS.or_else a b = a.
Proof. unfold JS.or_else; now intros ->. Qed.

(** ** The product check (lines 34-47) *)

Lemma product_not_found_run (api : Api) (st : State) :
  JS.truthy (productId (formData st)) = true ->
  products_get api (productId (formData st)) = Resolved None
  \/ products_get api (productId (formData st)) = Thrown tt ->
  checkExistingStock api st = productRejected st.
Proof.
  intros Hp Hq. unfold productRejected. run_act.
  rewrite Hp, andb_false_r. run_act.
  destruct Hq as [-> | ->]; reflexivity.
Qed.

Lemma product_found_run (api : Api) (st : State) (p : ProductRef) :
  JS.truthy (productId (formData st)) = true ->
  products_get api (productId (formData st)) = Resolved (Some p) ->
  checkExistingStock api st =
    (let '(a, st', l) := checkStockInformation api (formData st) st in
     (a, st', GET_products (productId (formData st)) :: l)).
Proof.
  intros Hp Hq. unfold checkExistingStock, axios_get_products.
  cbv beta iota delta [bind get emit ret]. cbn [formData].
  rewrite Hp, andb_false_r, Hq. cbn [fst snd app].
  destruct (checkStockInformation api (formData st) st) as [[a st'] l].
  reflexivity.
Qed.

Lemma no_product_id_run (api : Api) (st : State) :
  JS.truthy (stockId (formData st)) = true ->
  JS.truthy (productId (formData st)) = false ->
  checkExistingStock api st = checkStockInformation api (formData st) st.
Proof.
  intros Hs Hp. unfold checkExistingStock.
  cbv beta iota delta [bind get emit ret]. cbn [formData].
  rewrite Hs, Hp. cbn [negb andb fst snd app].
  destruct (checkStockInformation api (formData st) st) as [[a st'] l].
  reflexivity.
Qed.

(** C5.  When the product id is supplied and the product query answers
    with no product, the run sets the rejection "Product ID does not
    exist", clears the current stock, changes nothing else, and its only
    request is the product query: the stock listing is never fetched.  This
    holds for every state, hence for every stock id and quantity. *)
Theorem C5_missing_product_rejected (api : Api) (st : State) :
  JS.truthy (productId (formData st)) = true ->
  products_get api (productId (formData st)) = Resolved None ->
  checkExistingStock api st =
    (tt,
     {| formData := formData st; error := error st;
        productError := "Product ID does not exist"; loading := loading st;
        currentStock := None; stockIdExists := stockIdExists st |},
     [GET_products (productId (formData st))])
  /\ outcome (stateOf (checkExistingStock api st))
     = Rejected "Product ID does not exist".
Proof.
  intros Hp Hq.
  rewrite (product_not_found_run api st Hp (or_introl Hq)).
  split; reflexivity.
Qed.

Lemma C5_missing_product_rejected_witness :
  checkExistingStock (backend [1] [stock101]) (filled "101" "999" "20") =
    (tt,
     {| formData := {| stockId := "101"; productId := "999"; quantity := "20" |};
        error := ""; productError := "Product ID does not exist";
        loading := false; currentStock := None; stockIdExists := false |},
     [GET_products "999"])
  /\ outcome (stateOf (checkExistingStock (backend [1] [stock101])
                         (filled "101" "999" "20")))
     = Rejected "Product ID does not exist".
Proof.
  apply (C5_missing_product_rejected (backend [1] [stock101])
           (filled "101" "999" "20")); reflexivity.
Defined.

(** ** Submission with a missing field (lines 112-114, 151-155) *)

(** C6.  When at least one of the three fields is empty, [handleSubmit]
    sets the message "All fields are required", leaves every other part of
    the state as it was, and does nothing visible outside: the log is
    empty, so no POST is issued and no callback is called. *)
Theorem C6_empty_field_blocks_submit (api : Api) (st : State) :
  stockId (formData st) = "" \/ productId (formData st) = ""
  \/ quantity (formData st) = "" ->
  handleSubmit api st =
    (tt,
     {| formData := formData st; error := "All fields are required";
        productError := productError st; loading := loading st;
        currentStock := currentStock st; stockIdExists := stockIdExists st |},
     []).
Proof.
  intros H. run_act.
  assert (E : negb (JS.truthy (stockId (formData st)))
              || negb (JS.truthy (productId (formData st)))
              || negb (JS.truthy (quantity (formData st))) = true).
  { destruct H as [H | [H | H]]; rewrite H; simpl;
      rewrite ?orb_true_r; reflexivity. }
  rewrite E. reflexivity.
Qed.

Lemma C6_empty_field_blocks_submit_witness :
  handleSubmit (backend [1] [stock101]) (filled "101" "1" "") =
    (tt,
     {| formData := {| stockId := "101"; productId := "1"; quantity := "" |};
        error := "All fields are required"; productError := "";
        loading := false; currentStock := None; stockIdExists := false |},
     []).
Proof.
  apply (C6_empty_field_blocks_submit (backend [1] [stock101])
           (filled "101" "1" "")).
  right; right; reflexivity.
Defined.

(** ** Transport failures of the two read queries (lines 42-46, 88-91) *)

(** C7.  A product query that fails in transport leaves exactly the result
    of a product query that answers with no product: the same state, the
    rejection "Product ID does not exist", and the product query as the
    only request.  A stock listing that fails in transport, reached with the
    product found or with no product id supplied, sets the message "Error
    checking stock information" and changes nothing else. *)
Theorem C7_transport_failures :
  (forall (apiDown apiNull : Api) (st : State),
      JS.truthy (productId (formData st)) = true ->
      products_get apiDown (productId (formData st)) = Thrown tt ->
      products_get apiNull (productId (formData st)) = Resolved None ->
      checkExistingStock apiDown st = checkExistingStock apiNull st
      /\ outcome (stateOf (checkExistingStock apiDown st))
         = Rejected "Product ID does not exist"
      /\ logOf (checkExistingStock apiDown st)
         = [GET_products (productId (formData st))])
  /\
  (forall (api : Api) (st : State),
      JS.truthy (stockId (formData st)) = true
      \/ JS.truthy (productId (formData st)) = true ->
      (JS.truthy (productId (formData st)) = true ->
       exists p, products_get api (productId (formData st)) = Resolved (Some p)) ->
      stocks_get api 1 100 = Thrown tt ->
      stateOf (checkExistingStock api st) =
        {| formData := formData st; error := "Error checking stock information";
           productError := productError st; loading := loading st;
           currentStock := currentStock st; stockIdExists := stockIdExists st |}).
Proof.
  split.
  - intros apiDown apiNull st Hp Hdown Hnull.
    rewrite (product_not_found_run apiDown st Hp (or_intror Hdown)).
    rewrite (product_not_found_run apiNull st Hp (or_introl Hnull)).
    repeat split.
  - intros api st Hsome Hprod Hstocks.
    run_act.
    destruct (JS.truthy (productId (formData st))) eqn:Hp.
    + rewrite andb_false_r. destruct (Hprod eq_refl) as [p Hq].
      run_act. rewrite Hq. run_act. rewrite Hstocks. reflexivity.
    + destruct Hsome as [Hs | Hs]; [| discriminate].
      rewrite Hs. run_act. rewrite Hstocks. reflexivity.
Qed.

Lemma C7_transport_failures_witness :
  (checkExistingStock (productsDown [stock101]) (filled "101" "1" "20")
   = checkExistingStock (backend [] [stock101]) (filled "101" "1" "20")
   /\ outcome (stateOf (checkExistingStock (productsDown [stock101])
                          (filled "101" "1" "20")))
      = Rejected "Product ID does not exist"
   /\ logOf (checkExistingStock (productsDown [stock101]) (filled "101" "1" "20"))
      = [GET_products "1"])
  /\ stateOf (checkExistingStock (stocksDown [1]) (filled "101" "1" "20")) =
       {| formData := {| stockId := "101"; productId := "1"; quantity := "20" |};
          error := "Error checking stock information"; productError := "";
          loading := false; currentStock := None; stockIdExists := false |}.
Proof.
  split.
  - apply (proj1 C7_transport_failures (productsDown [stock101])
             (backend [] [stock101]) (filled "101" "1" "20")); reflexivity.
  - apply (proj2 C7_transport_failures (stocksDown [1]) (filled "101" "1" "20")).
    + left; reflexivity.
    + intros _. exists {| product_ref_id := 1 |}. reflexivity.
    + reflexivity.
Defined.

(** ** The decision on a fetched listing (lines 57-87) *)

Lemma listing_fetched_run (api : Api) (fd : FormData) (st : State)
    (stocks : list Stock.t) :
  stocks_get api 1 100 = Resolved stocks ->
  checkStockInformation api fd st =
    (let '(a, st', l) := decideOnListing fd stocks st in
     (a, st', GET_stocks 1 100 :: l)).
Proof.
  intros H. unfold checkStockInformation, axios_get_stocks.
  cbv beta iota delta [bind emit ret]. rewrite H. cbn [fst snd app].
  destruct (decideOnListing fd stocks st) as [[a st'] l]. reflexivity.
Qed.

Lemma strict_eq_truthy (a : Z) (s : string) :
  JS.strict_eq a (JS.parseInt s) = true -> JS.truthy s = true.
Proof. destruct s; [discriminate | reflexivity]. Qed.

Lemma decide_cross_assigned (fd : FormData) (stocks : list Stock.t)
    (st : State) (e : Stock.t) :
  existingStockOf fd stocks = Some e ->
  JS.truthy (productId fd) = true ->
  JS.strict_eq (Stock.product_id e) (JS.parseInt (productId fd)) = false ->
  decideOnListing fd stocks st =
    (tt,
     {| formData := formData st; error := error st;
        productError := "Stock ID " ++ stockId fd
                        ++ " is already assigned to Product ID "
                        ++ JS.toString (Stock.product_id e);
        loading := loading st; currentStock := None; stockIdExists := true |},
     []).
Proof.
  intros He Hp Hne. run_act. rewrite He. run_act.
  rewrite Hp, Hne. reflexivity.
Qed.

Lemma decide_bound_elsewhere (fd : FormData) (stocks : list Stock.t)
    (st : State) (p : Stock.t) :
  productStockOf fd stocks = Some p ->
  existingStockOf fd stocks = None
  \/ (exists e, existingStockOf fd stocks = Some e
               /\ JS.strict_eq (Stock.product_id e) (JS.parseInt (productId fd)) = true
               /\ Stock.id e <> Stock.id p) ->
  decideOnListing fd stocks st =
    (tt,
     {| formData := formData st; error := error st;
        productError := "Product ID " ++ productId fd ++ " already has Stock ID "
                        ++ JS.toString (Stock.id p);
        loading := loading st; currentStock := None;
        stockIdExists := match existingStockOf fd stocks with
                         | Some _ => true | None => false end |},
     []).
Proof.
  intros Hp [He | (e & He & Heq & Hid)]; run_act; rewrite He, Hp; run_act.
  - reflexivity.
  - rewrite Heq, andb_false_r.
    apply Z.eqb_neq in Hid. rewrite Hid. reflexivity.
Qed.

Lemma decide_update (fd : FormData) (stocks : list Stock.t)
    (st : State) (e : Stock.t) :
  existingStockOf fd stocks = Some e ->
  JS.strict_eq (Stock.product_id e) (JS.parseInt (productId fd)) = true ->
  match productStockOf fd stocks with
  | Some p => Stock.id e = Stock.id p
  | None => True
  end ->
  decideOnListing fd stocks st =
    (tt,
     {| formData := formData st;
        error := "Current stock quantity: " ++ JS.toString (Stock.quantity e)
                 ++ ". New quantity will be added to this.";
        productError := ""; loading := loading st;
        currentStock := Some e; stockIdExists := true |},
     []).
Proof.
  intros He Heq Hp. run_act. rewrite He. run_act.
  rewrite Heq, andb_false_r.
  destruct (productStockOf fd stocks) as [p |].
  - apply Z.eqb_eq in Hp. rewrite Hp. reflexivity.
  - reflexivity.
Qed.

Lemma decide_create (fd : FormData) (stocks : list Stock.t) (st : State) :
  existingStockOf fd stocks = None ->
  productStockOf fd stocks = None ->
  decideOnListing fd stocks st =
    (tt,
     {| formData := formData st; error := ""; productError := "";
        loading := loading st; currentStock := None; stockIdExists := false |},
     []).
Proof.
  intros He Hp. run_act. rewrite He, Hp. reflexivity.
Qed.

Lemma decide_without_product (fd : FormData) (stocks : list Stock.t)
    (st : State) (e : Stock.t) :
  existingStockOf fd stocks = Some e ->
  productId fd = "" ->
  decideOnListing fd stocks st =
    (tt,
     {| formData := formData st; error := ""; productError := "";
        loading := loading st; currentStock := None; stockIdExists := true |},
     []).
Proof.
  intros He Hp. run_act. rewrite He. unfold productStockOf. rewrite Hp.
  reflexivity.
Qed.

(** The whole run when the product check passes and the listing arrives. *)
Lemma reconcile_run (api : Api) (st : State) (stocks : list Stock.t) :
  JS.truthy (stockId (formData st)) = true
  \/ JS.truthy (productId (formData st)) = true ->
  (JS.truthy (productId (formData st)) = true ->
   exists p, products_get api (productId (formData st)) = Resolved (Some p)) ->
  stocks_get api 1 100 = Resolved stocks ->
  stateOf (checkExistingStock api st)
  = stateOf (decideOnListing (formData st) stocks st)
  /\ logOf (checkExistingStock api st)
     = ((if JS.truthy (productId (formData st))
         then [GET_products (productId (formData st))] else [])
        ++ GET_stocks 1 100 :: logOf (decideOnListing (formData st) stocks st))%list.
Proof.
  intros Hsome Hprod Hstocks.
  destruct (JS.truthy (productId (formData st))) eqn:Hp.
  - destruct (Hprod eq_refl) as [p Hq].
    rewrite (product_found_run api st p Hp Hq).
    rewrite (listing_fetched_run api _ st stocks Hstocks).
    destruct (decideOnListing (formData st) stocks st) as [[a st'] l].
    split; reflexivity.
  - destruct Hsome as [Hs | Hs]; [| discriminate].
    rewrite (no_product_id_run api st Hs Hp).
    rewrite (listing_fetched_run api _ st stocks Hstocks).
    destruct (decideOnListing (formData st) stocks st) as [[a st'] l].
    split; reflexivity.
Qed.

(** In a list whose keys are pairwise distinct, [find] on a key returns the
    one record that carries it. *)
Lemma find_by_unique_key (key : Stock.t -> Z) (n : JS.number)
    (l : list Stock.t) (r : Stock.t) :
  NoDup (map key l) -> In r l -> JS.strict_eq (key r) n = true ->
  find (fun s => JS.strict_eq (key s) n) l = Some r.
Proof.
  destruct n as [| k | neg]; [discriminate | | discriminate].
  cbn [JS.strict_eq].
  induction l as [| a l IH]; intros Hnd Hin Hr; [contradiction |].
  cbn [map] in Hnd. inversion Hnd as [| x xs Hnotin Hnd']; subst.
  cbn [find]. destruct (key a =? k) eqn:Ha.
  - destruct Hin as [-> | Hin]; [reflexivity |].
    exfalso. apply Hnotin. apply Z.eqb_eq in Ha, Hr.
    rewrite Ha, <- Hr. now apply in_map.
  - destruct Hin as [-> | Hin]; [congruence |]. now apply IH.
Qed.

(** ** Numbers within the safe range *)

(** A safe integer is its own Number value. *)
Lemma ofInteger_safe (z : Z) : JS.safeInteger z -> JS.ofInteger z = JS.Finite z.
Proof.
  unfold JS.safeInteger, JS.ofInteger. intros Hz.
  destruct (z =? 0) eqn:E0; [apply Z.eqb_eq in E0; now subst |].
  apply Z.eqb_neq in E0.
  assert (Hpos : 0 < Z.abs z) by lia.
  assert (Hlog : Z.log2 (Z.abs z) <= 52).
  { assert (Z.log2 (Z.abs z) < 53); [| lia].
    apply Z.log2_lt_pow2; [exact Hpos |].
    change (2 ^ 53) with 9007199254740992. exact Hz. }
  unfold JS.roundSignificand. apply Z.leb_le in Hlog. rewrite Hlog.
  assert (Hmax : (JS.maxValue <? Z.abs z) = false).
  { apply Z.ltb_ge. assert (9007199254740992 <= JS.maxValue) by (vm_compute; discriminate).
    lia. }
  rewrite Hmax. f_equal. destruct z; simpl; lia.
Qed.

(** A safe integer is printed digit for digit. *)
Lemma toString_safe (z : Z) : JS.safeInteger z -> JS.toString z = JS.decimal z.
Proof.
  unfold JS.safeInteger, JS.toString, JS.positiveToString, JS.isSafe. intros Hz.
  destruct (z <? 0) eqn:Hneg.
  - apply Z.ltb_lt in Hneg.
    assert (E : (Z.abs (- z) <? 9007199254740992) = true) by (apply Z.ltb_lt; lia).
    rewrite E. destruct z as [| p | p]; try lia. reflexivity.
  - assert (E : (Z.abs z <? 9007199254740992) = true) by (apply Z.ltb_lt; lia).
    now rewrite E.
Qed.

Lemma literal_digits_read (r : string) :
  forall a v, literalDigits r a = Some v -> JS.digits 10 r (Some a) = Some v.
Proof.
  induction r as [| c r IH]; intros a v H; [exact H |].
  cbn [literalDigits] in H. cbn [JS.digits].
  destruct c as [b0 b1 b2 b3 b4 b5 b6 b7];
    destruct b0, b1, b2, b3, b4, b5, b6, b7;
    try discriminate H; cbn in H |- *; now apply IH.
Qed.

(** On a non-negative integer literal, [parseInt] gives the Number value
    of the integer the literal writes. *)
Lemma parseInt_of_literal (s : string) (v : Z) :
  integerLiteral s = Some v -> JS.parseInt s = JS.ofInteger v.
Proof.
  destruct s as [| c r]; [discriminate |].
  unfold integerLiteral. cbn [literalDigits]. intros H.
  assert (G : JS.digits 10 (String c r) None = Some v).
  { cbn [JS.digits].
    destruct c as [b0 b1 b2 b3 b4 b5 b6 b7];
      destruct b0, b1, b2, b3, b4, b5, b6, b7;
      try discriminate H; cbn in H |- *; now apply literal_digits_read. }
  unfold JS.parseInt.
  destruct c as [b0 b1 b2 b3 b4 b5 b6 b7];
    destruct b0, b1, b2, b3, b4, b5, b6, b7;
    try discriminate H; cbn [JS.trimStart];
    match goal with
    | |- context [JS.isWhiteSpace ?d] => change (JS.isWhiteSpace d) with false
    end;
    cbv beta iota;
    try (rewrite G; f_equal; destruct v; reflexivity).
  (* the literal starts with the digit 0: it is not followed by x or X *)
  destruct r as [| c2 r2]; [rewrite G; f_equal; destruct v; reflexivity |].
  cbn in H.
  destruct c2 as [b0 b1 b2 b3 b4 b5 b6 b7];
    destruct b0, b1, b2, b3, b4, b5, b6, b7;
    try discriminate H; cbv beta iota; rewrite G; f_equal; destruct v; reflexivity.
Qed.

(** A safe integer literal parses to the integer it writes. *)
Lemma parseInt_of_safe_literal (s : string) (v : Z) :
  integerLiteral s = Some v -> JS.safeInteger v -> JS.parseInt s = JS.Finite v.
Proof.
  intros H Hv. rewrite (parseInt_of_literal s v H). now apply ofInteger_safe.
Qed.

Lemma listed_stock_safe (stocks : list Stock.t) (s : Stock.t) :
  Forall safeStock stocks -> In s stocks -> safeStock s.
Proof. intros H Hin. rewrite Forall_forall in H. now apply H. Qed.

Lemma existing_listed (fd : FormData) (stocks : list Stock.t) (e : Stock.t) :
  existingStockOf fd stocks = Some e -> In e stocks.
Proof.
  unfold existingStockOf. destruct (JS.truthy (stockId fd)); [| discriminate].
  intros H. now apply find_some in H.
Qed.

Lemma product_stock_listed (fd : FormData) (stocks : list Stock.t) (p : Stock.t) :
  productStockOf fd stocks = Some p -> In p stocks.
Proof.
  unfold productStockOf. destruct (JS.truthy (productId fd)); [| discriminate].
  intros H. now apply find_some in H.
Qed.

Ltac safe_range :=
  unfold safeInput, safeStock, safeNumber, JS.safeInteger;
  repeat (split || constructor); vm_compute; reflexivity.

(** ** Cross-assignment (lines 62-68) *)

(** C4 (amended).  With every number involved a safe integer (below 2^53,
    where [parseInt], [===] and the printed digits are exact): when the
    product query finds the supplied product and the record found for the
    supplied stock id carries a product id that differs from the supplied,
    non-empty product id, the run rejects with "Stock ID {stockId} is
    already assigned to Product ID {that product id}", the id printed digit
    for digit, and stops: the result does not depend on whether the
    supplied product is bound to another record, so the check is decided
    before the product-already-bound check. *)
Theorem C4_cross_assignment_rejected (api : Api) (st : State)
    (stocks : list Stock.t) (e : Stock.t) (pr : ProductRef) :
  let fd := formData st in
  safeInput fd stocks ->
  JS.truthy (productId fd) = true ->
  products_get api (productId fd) = Resolved (Some pr) ->
  stocks_get api 1 100 = Resolved stocks ->
  existingStockOf fd stocks = Some e ->
  JS.strict_eq (Stock.product_id e) (JS.parseInt (productId fd)) = false ->
  let st' := stateOf (checkExistingStock api st) in
  outcome st' = Rejected ("Stock ID " ++ stockId fd
                          ++ " is already assigned to Product ID "
                          ++ JS.decimal (Stock.product_id e))
  /\ currentStock st' = None
  /\ logOf (checkExistingStock api st)
     = [GET_products (productId fd); GET_stocks 1 100].
Proof.
  intros fd (_ & _ & _ & Hsafe) Hp Hq Hstocks He Hne st'.
  destruct (reconcile_run api st stocks (or_intror Hp)
              (fun _ => ex_intro _ pr Hq) Hstocks) as [Est Elog].
  destruct (listed_stock_safe stocks e Hsafe (existing_listed fd stocks e He))
    as (_ & Hprod & _).
  subst st'. rewrite Est, Elog. fold fd. rewrite Hp.
  rewrite (decide_cross_assigned fd stocks st e He Hp Hne).
  rewrite (toString_safe _ Hprod).
  repeat split.
Qed.

Lemma C4_cross_assignment_rejected_witness :
  outcome (stateOf (checkExistingStock (backend [1; 2] [stock101; stock102])
                      (filled "102" "1" "")))
  = Rejected "Stock ID 102 is already assigned to Product ID 2"
  /\ currentStock (stateOf (checkExistingStock (backend [1; 2] [stock101; stock102])
                              (filled "102" "1" ""))) = None
  /\ logOf (checkExistingStock (backend [1; 2] [stock101; stock102])
              (filled "102" "1" ""))
     = [GET_products "1"; GET_stocks 1 100].
Proof.
  apply (C4_cross_assignment_rejected (backend [1; 2] [stock101; stock102])
           (filled "102" "1" "") [stock101; stock102] stock102
           {| product_ref_id := 1 |}); try reflexivity.
  safe_range.
Defined.

(** C4 as stated fails when the supplied product does not exist: the
    record of stock id 101 carries product id 1, the supplied product id is
    999, and the rejection is the product check's, which does not name the
    conflicting product id. *)
Lemma C4_counterexample_missing_product :
  let api := backend [1] [stock101] in
  let st := filled "101" "999" "20" in
  existingStockOf (formData st) [stock101] = Some stock101
  /\ JS.strict_eq (Stock.product_id stock101)
       (JS.parseInt (productId (formData st))) = false
  /\ outcome (stateOf (checkExistingStock api st))
     = Rejected "Product ID does not exist"
  /\ outcome (stateOf (checkExistingStock api st))
     <> Rejected "Stock ID 101 is already assigned to Product ID 1".
Proof.
  cbv zeta. repeat split; try reflexivity. discriminate.
Qed.

(** Outside the safe range C4's wording fails too: the record of stock id
    101 carries product id 2^53, the supplied product id 2^53 + 1 is
    another integer, yet [parseInt] rounds it to 2^53, line 64 finds no
    difference and the run previews a top-up. *)
Example cross_assignment_missed_by_rounding :
  let big := {| Stock.id := 101; Stock.product_id := 9007199254740992;
                Stock.quantity := 50 |} in
  let st := filled "101" "9007199254740993" "" in
  integerLiteral (productId (formData st)) = Some 9007199254740993
  /\ Stock.product_id big <> 9007199254740993
  /\ currentStock (stateOf (checkExistingStock
                              (backend [9007199254740992] [big]) st)) = Some big
  /\ productError (stateOf (checkExistingStock
                              (backend [9007199254740992] [big]) st)) = "".
Proof.
  cbv zeta. repeat split; try reflexivity. discriminate.
Qed.

(** ** Product already bound (lines 73-77) *)

(** C3 (amended).  With every number involved a safe integer (below 2^53):
    when the product query finds the supplied product, the listing holds a
    record [p] for the supplied product id (the first such record), and
    either no record is found for the supplied stock id or the record
    found carries the supplied product id and an id other than [p]'s, the
    run rejects with "Product ID {productId} already has Stock ID {p.id}",
    the id printed digit for digit. *)
Theorem C3_bound_elsewhere_rejected (api : Api) (st : State)
    (stocks : list Stock.t) (p : Stock.t) (pr : ProductRef) :
  let fd := formData st in
  safeInput fd stocks ->
  products_get api (productId fd) = Resolved (Some pr) ->
  stocks_get api 1 100 = Resolved stocks ->
  productStockOf fd stocks = Some p ->
  existingStockOf fd stocks = None
  \/ (exists e, existingStockOf fd stocks = Some e
               /\ JS.strict_eq (Stock.product_id e) (JS.parseInt (productId fd)) = true
               /\ Stock.id e <> Stock.id p) ->
  let st' := stateOf (checkExistingStock api st) in
  outcome st' = Rejected ("Product ID " ++ productId fd ++ " already has Stock ID "
                          ++ JS.decimal (Stock.id p))
  /\ currentStock st' = None.
Proof.
  intros fd (_ & _ & _ & Hsafe) Hq Hstocks Hps Hex st'.
  assert (Hp : JS.truthy (productId fd) = true).
  { unfold productStockOf in Hps.
    destruct (JS.truthy (productId fd)); [reflexivity | discriminate]. }
  destruct (reconcile_run api st stocks (or_intror Hp)
              (fun _ => ex_intro _ pr Hq) Hstocks) as [Est _].
  destruct (listed_stock_safe stocks p Hsafe (product_stock_listed fd stocks p Hps))
    as (Hid & _ & _).
  subst st'. rewrite Est. fold fd.
  rewrite (decide_bound_elsewhere fd stocks st p Hps Hex).
  rewrite (toString_safe _ Hid).
  split; reflexivity.
Qed.

Lemma C3_bound_elsewhere_rejected_witness :
  outcome (stateOf (checkExistingStock (backend [1] [stock101])
                      (filled "102" "1" "")))
  = Rejected "Product ID 1 already has Stock ID 101"
  /\ currentStock (stateOf (checkExistingStock (backend [1] [stock101])
                              (filled "102" "1" ""))) = None.
Proof.
  apply (C3_bound_elsewhere_rejected (backend [1] [stock101])
           (filled "102" "1" "") [stock101] stock101 {| product_ref_id := 1 |});
    try reflexivity.
  - safe_range.
  - left; reflexivity.
Defined.

(** C3 as stated fails when the record found for the supplied stock id is
    assigned to another product: product 1 is bound to stock 101, the
    supplied stock id is 102, and the rejection is the cross-assignment
    one, which names product 2 and not stock 101. *)
Lemma C3_counterexample_cross_assignment_first :
  let api := backend [1; 2] [stock101; stock102] in
  let st := filled "102" "1" "" in
  In stock101 [stock101; stock102]
  /\ JS.strict_eq (Stock.product_id stock101)
       (JS.parseInt (productId (formData st))) = true
  /\ JS.strict_eq (Stock.id stock101) (JS.parseInt (stockId (formData st))) = false
  /\ outcome (stateOf (checkExistingStock api st))
     = Rejected "Stock ID 102 is already assigned to Product ID 2"
  /\ outcome (stateOf (checkExistingStock api st))
     <> Rejected "Product ID 1 already has Stock ID 101".
Proof.
  cbv zeta. repeat split; try reflexivity; [now left | discriminate].
Qed.

(** Outside the safe range C3's wording fails too: product 1 is bound to
    the stock of id 2^53, the supplied stock id 2^53 + 1 is another
    integer, yet [parseInt] rounds it to 2^53, line 58 finds the record and
    the run previews a top-up instead of rejecting. *)
Example bound_elsewhere_missed_by_rounding :
  let big := {| Stock.id := 9007199254740992; Stock.product_id := 1;
                Stock.quantity := 50 |} in
  let st := filled "9007199254740993" "1" "" in
  integerLiteral (stockId (formData st)) = Some 9007199254740993
  /\ Stock.id big <> 9007199254740993
  /\ currentStock (stateOf (checkExistingStock (backend [1] [big]) st)) = Some big
  /\ productError (stateOf (checkExistingStock (backend [1] [big]) st)) = "".
Proof.
  cbv zeta. repeat split; try reflexivity. discriminate.
Qed.

(** ** The update preview (lines 79-82, 230-242) *)

(** C1 (amended).  With every number involved a safe integer (below 2^53),
    the sum included: in a listing with one record per id and at most one
    per product, when a record [r] carries the supplied stock id and the
    supplied product id and the product query finds that product, the run
    yields the update of [r]: the current stock is [r], no rejection is
    set, the message cell holds "Current stock quantity: {r.quantity}. New
    quantity will be added to this." with the quantity printed digit for
    digit (the cell is not rendered while a current stock is held: the
    panel is), and for a supplied quantity [q] the new quantity, shown by
    the panel, is [r]'s quantity plus [q]. *)
Theorem C1_update_preview (api : Api) (st : State)
    (stocks : list Stock.t) (r : Stock.t) (pr : ProductRef) :
  let fd := formData st in
  safeInput fd stocks ->
  products_get api (productId fd) = Resolved (Some pr) ->
  stocks_get api 1 100 = Resolved stocks ->
  uniqueStocks stocks ->
  In r stocks ->
  JS.strict_eq (Stock.id r) (JS.parseInt (stockId fd)) = true ->
  JS.strict_eq (Stock.product_id r) (JS.parseInt (productId fd)) = true ->
  let st' := stateOf (checkExistingStock api st) in
  currentStock st' = Some r
  /\ productError st' = ""
  /\ error st' = "Current stock quantity: " ++ JS.decimal (Stock.quantity r)
                 ++ ". New quantity will be added to this."
  /\ renderError st' = None
  /\ forall q, JS.parseInt (quantity fd) = JS.Finite q ->
       JS.safeInteger (Stock.quantity r + q) ->
       outcome st' = Update (Stock.id r) (Stock.quantity r) (JS.Finite q)
                            (JS.Finite (Stock.quantity r + q))
       /\ renderStockPanel st'
          = Some {| current_units := Stock.quantity r;
                    after_adding := Some (JS.Finite (Stock.quantity r + q)) |}.
Proof.
  intros fd (_ & _ & _ & Hsafe) Hq Hstocks [Hids Hprods] Hin Hid Hpid st'.
  pose proof (strict_eq_truthy _ _ Hid) as Hs.
  pose proof (strict_eq_truthy _ _ Hpid) as Hp.
  assert (He : existingStockOf fd stocks = Some r).
  { unfold existingStockOf. rewrite Hs.
    now apply (find_by_unique_key Stock.id). }
  assert (Hps : productStockOf fd stocks = Some r).
  { unfold productStockOf. rewrite Hp.
    now apply (find_by_unique_key Stock.product_id). }
  destruct (reconcile_run api st stocks (or_intror Hp)
              (fun _ => ex_intro _ pr Hq) Hstocks) as [Est _].
  destruct (listed_stock_safe stocks r Hsafe Hin) as (_ & _ & Hqty).
  assert (Hdec := decide_update fd stocks st r He Hpid).
  rewrite Hps in Hdec. specialize (Hdec eq_refl).
  subst st'. rewrite Est. fold fd. rewrite Hdec.
  cbn [stateOf fst snd currentStock productError error].
  rewrite (toString_safe _ Hqty).
  split; [reflexivity | split; [reflexivity | split; [reflexivity |]]].
  split; [reflexivity |].
  intros q Hparse Hsum. pose proof (parseInt_some_truthy _ _ Hparse) as Htq. split.
  - unfold outcome. cbn [productError currentStock formData JS.truthy].
    fold fd. rewrite (or_else_truthy _ "0" Htq), Hparse. cbn [JS.add].
    now rewrite (ofInteger_safe _ Hsum).
  - unfold renderStockPanel. cbn [currentStock formData]. fold fd.
    rewrite Htq, (or_else_truthy _ "0" Htq), Hparse. cbn [JS.add].
    now rewrite (ofInteger_safe _ Hsum).
Qed.

Lemma C1_update_preview_witness :
  let st' := stateOf (checkExistingStock (backend [1] [stock101])
                        (filled "101" "1" "20")) in
  currentStock st' = Some stock101
  /\ productError st' = ""
  /\ error st' = "Current stock quantity: 50. New quantity will be added to this."
  /\ renderError st' = None
  /\ forall q, JS.parseInt "20" = JS.Finite q ->
       JS.safeInteger (50 + q) ->
       outcome st' = Update 101 50 (JS.Finite q) (JS.Finite (50 + q))
       /\ renderStockPanel st'
          = Some {| current_units := 50;
                    after_adding := Some (JS.Finite (50 + q)) |}.
Proof.
  apply (C1_update_preview (backend [1] [stock101]) (filled "101" "1" "20")
           [stock101] stock101 {| product_ref_id := 1 |}); try reflexivity.
  - safe_range.
  - split; repeat constructor; simpl; tauto.
  - now left.
Defined.

(** C1 as stated fails when the product query does not find the product,
    here because it fails in transport: the record of stock id 101 and
    product id 1 is in the listing, and the run rejects without an update
    preview. *)
Lemma C1_counterexample_missing_product :
  let api := productsDown [stock101] in
  let st := filled "101" "1" "20" in
  uniqueStocks [stock101]
  /\ In stock101 [stock101]
  /\ JS.strict_eq (Stock.id stock101) (JS.parseInt (stockId (formData st))) = true
  /\ JS.strict_eq (Stock.product_id stock101)
       (JS.parseInt (productId (formData st))) = true
  /\ outcome (stateOf (checkExistingStock api st))
     = Rejected "Product ID does not exist"
  /\ outcome (stateOf (checkExistingStock (backend [] [stock101]) st))
     = Rejected "Product ID does not exist"
  /\ renderStockPanel (stateOf (checkExistingStock api st)) = None.
Proof.
  cbv zeta. repeat split; try reflexivity; try (now left);
    repeat constructor; simpl; tauto.
Qed.

(** Outside the safe range C1's wording fails too: for the stock of
    quantity 50 and the supplied quantity 2^53 + 1 the panel shows
    9007199254741042, which is not 50 plus the supplied quantity. *)
Example top_up_sum_rounded :
  let st := filled "101" "1" "9007199254740993" in
  integerLiteral (quantity (formData st)) = Some 9007199254740993
  /\ renderStockPanel (stateOf (checkExistingStock (backend [1] [stock101]) st))
     = Some {| current_units := 50;
               after_adding := Some (JS.Finite 9007199254741042) |}
  /\ 50 + 9007199254740993 <> 9007199254741042.
Proof.
  cbv zeta. repeat split; try reflexivity. discriminate.
Qed.

(** ** Creation (lines 83-87) and its write request (lines 118-124) *)

Lemma find_absent (f : Stock.t -> bool) (l : list Stock.t) :
  (forall s, In s l -> f s = false) -> find f l = None.
Proof.
  induction l as [| a l IH]; intros H; [reflexivity |].
  cbn [find]. rewrite (H a (or_introl eq_refl)).
  apply IH. intros s Hs. apply H. now right.
Qed.

Lemma find_present (f : Stock.t -> bool) (l : list Stock.t) (x : Stock.t) :
  In x l -> f x = true -> exists y, find f l = Some y.
Proof.
  intros Hin Hx. destruct (find f l) as [y |] eqn:E; [now exists y |].
  rewrite (find_none f l E x Hin) in Hx. discriminate.
Qed.

(** What a submission with the three fields filled and no rejection pending
    does outside the component. *)
Lemma valid_submit_log (api : Api) (st : State) :
  JS.truthy (stockId (formData st)) = true ->
  JS.truthy (productId (formData st)) = true ->
  JS.truthy (quantity (formData st)) = true ->
  productError st = "" ->
  logOf (handleSubmit api st)
  = POST_stocks {| StockData.id := JS.parseInt (stockId (formData st));
                   StockData.product_id := JS.parseInt (productId (formData st));
                   StockData.quantity := JS.parseInt (quantity (formData st)) |} ::
      match stocks_post api
              {| StockData.id := JS.parseInt (stockId (formData st));
                 StockData.product_id := JS.parseInt (productId (formData st));
                 StockData.quantity := JS.parseInt (quantity (formData st)) |}
      with
      | Resolved (Some data) => [OnSubmit data; OnClose]
      | _ => []
      end.
Proof.
  intros Hs Hpid Hqty Hpe. run_act. rewrite Hs, Hpid, Hqty, Hpe.
  cbn [JS.truthy]. run_act.
  destruct (stocks_post api _) as [[data |] | msg].
  - destruct (previousQuantity data); reflexivity.
  - reflexivity.
  - reflexivity.
Qed.

(** C2 (amended).  With the three fields holding integer literals of safe
    integers [i], [p] and [q] (below 2^53): when the product query finds
    the supplied product, no record of the listing has the id [i] and none
    has the product id [p], the run ends with no rejection, no current
    stock and no message, which the component shows as the creation of the
    record (id [i], product_id [p], quantity [q]); submitted from that
    state, [handleSubmit] issues one POST whose body is exactly that
    record, followed only by the callbacks of a successful answer. *)
Theorem C2_create_and_write (api : Api) (st : State) (stocks : list Stock.t)
    (pr : ProductRef) (i p q : Z) :
  let fd := formData st in
  let record := {| StockData.id := JS.Finite i;
                   StockData.product_id := JS.Finite p;
                   StockData.quantity := JS.Finite q |} in
  integerLiteral (stockId fd) = Some i -> JS.safeInteger i ->
  integerLiteral (productId fd) = Some p -> JS.safeInteger p ->
  integerLiteral (quantity fd) = Some q -> JS.safeInteger q ->
  products_get api (productId fd) = Resolved (Some pr) ->
  stocks_get api 1 100 = Resolved stocks ->
  (forall s, In s stocks -> Stock.id s <> i) ->
  (forall s, In s stocks -> Stock.product_id s <> p) ->
  let st' := stateOf (checkExistingStock api st) in
  st' = {| formData := fd; error := ""; productError := "";
           loading := loading st; currentStock := None; stockIdExists := false |}
  /\ outcome st' = Create record
  /\ logOf (handleSubmit api st')
     = POST_stocks record ::
         match stocks_post api record with
         | Resolved (Some data) => [OnSubmit data; OnClose]
         | _ => []
         end.
Proof.
  intros fd record Hi Hisafe Hp Hpsafe Hq Hqsafe Hprod Hstocks Hnoid Hnoprod st'.
  pose proof (parseInt_of_safe_literal _ _ Hi Hisafe) as Pi.
  pose proof (parseInt_of_safe_literal _ _ Hp Hpsafe) as Pp.
  pose proof (parseInt_of_safe_literal _ _ Hq Hqsafe) as Pq.
  pose proof (parseInt_some_truthy _ _ Pi) as Ti.
  pose proof (parseInt_some_truthy _ _ Pp) as Tp.
  pose proof (parseInt_some_truthy _ _ Pq) as Tq.
  destruct (reconcile_run api st stocks (or_introl Ti)
              (fun _ => ex_intro _ pr Hprod) Hstocks) as [Est _].
  assert (He : existingStockOf fd stocks = None).
  { unfold existingStockOf. rewrite Ti, Pi. apply find_absent.
    intros s Hs. cbn [JS.strict_eq]. apply Z.eqb_neq. now apply Hnoid. }
  assert (Hps : productStockOf fd stocks = None).
  { unfold productStockOf. rewrite Tp, Pp. apply find_absent.
    intros s Hs. cbn [JS.strict_eq]. apply Z.eqb_neq. now apply Hnoprod. }
  assert (E : st' = {| formData := fd; error := ""; productError := "";
                       loading := loading st; currentStock := None;
                       stockIdExists := false |}).
  { subst st'. rewrite Est. fold fd.
    rewrite (decide_create fd stocks st He Hps). reflexivity. }
  rewrite E. split; [reflexivity |]. split.
  - unfold outcome. cbn [productError currentStock formData JS.truthy].
    now rewrite Pi, Pp, Pq.
  - rewrite (valid_submit_log api
               {| formData := fd; error := ""; productError := "";
                  loading := loading st; currentStock := None;
                  stockIdExists := false |} Ti Tp Tq eq_refl).
    cbn [formData]. now rewrite Pi, Pp, Pq.
Qed.

Lemma C2_create_and_write_witness :
  let api := backend [1; 2] [stock101] in
  let st' := stateOf (checkExistingStock api (filled "200" "2" "10")) in
  let record := {| StockData.id := JS.Finite 200;
                   StockData.product_id := JS.Finite 2;
                   StockData.quantity := JS.Finite 10 |} in
  st' = filled "200" "2" "10"
  /\ outcome st' = Create record
  /\ logOf (handleSubmit api st') = [POST_stocks record].
Proof.
  apply (C2_create_and_write (backend [1; 2] [stock101]) (filled "200" "2" "10")
           [stock101] {| product_ref_id := 2 |} 200 2 10);
    try reflexivity.
  - intros s [<- | []]. discriminate.
  - intros s [<- | []]. discriminate.
Defined.

(** C2 as stated fails outside the safe range: the supplied stock id is the
    integer literal 2^53 + 1, no record has that id and nothing conflicts,
    yet the record shown and the body posted carry the id 2^53, which is
    what [parseInt] makes of the text. *)
Lemma C2_counterexample_rounded_id :
  let api := backend [1; 2] [stock101] in
  let st := filled "9007199254740993" "2" "10" in
  let st' := stateOf (checkExistingStock api st) in
  integerLiteral (stockId (formData st)) = Some 9007199254740993
  /\ existingStockOf (formData st) [stock101] = None
  /\ productStockOf (formData st) [stock101] = None
  /\ outcome st' = Create {| StockData.id := JS.Finite 9007199254740992;
                             StockData.product_id := JS.Finite 2;
                             StockData.quantity := JS.Finite 10 |}
  /\ logOf (handleSubmit api st')
     = [POST_stocks {| StockData.id := JS.Finite 9007199254740992;
                       StockData.product_id := JS.Finite 2;
                       StockData.quantity := JS.Finite 10 |}]
  /\ JS.Finite 9007199254740992 <> JS.Finite 9007199254740993.
Proof.
  cbv zeta. repeat split; try reflexivity. discriminate.
Qed.

(** ** A stock id alone (lines 62-71, 79-87) *)

(** C10.  When the product id field is empty and a record of the listing
    carries the supplied stock id, the run sets no rejection and no update
    preview: the current stock is cleared, both messages are empty, only
    [stockIdExists] records the match, nothing of it is rendered, and the
    listing is the only request. *)
Theorem C10_stock_id_alone (api : Api) (st : State)
    (stocks : list Stock.t) (e : Stock.t) :
  let fd := formData st in
  productId fd = "" ->
  stocks_get api 1 100 = Resolved stocks ->
  In e stocks ->
  JS.strict_eq (Stock.id e) (JS.parseInt (stockId fd)) = true ->
  let st' := stateOf (checkExistingStock api st) in
  st' = {| formData := fd; error := ""; productError := "";
           loading := loading st; currentStock := None; stockIdExists := true |}
  /\ renderProductError st' = None
  /\ renderStockPanel st' = None
  /\ renderError st' = None
  /\ logOf (checkExistingStock api st) = [GET_stocks 1 100].
Proof.
  intros fd Hp Hstocks Hin Hid st'.
  pose proof (strict_eq_truthy _ _ Hid) as Hs.
  assert (Hpf : JS.truthy (productId fd) = false) by now rewrite Hp.
  destruct (find_present
              (fun s => JS.strict_eq (Stock.id s) (JS.parseInt (stockId fd)))
              stocks e Hin Hid) as [e' He'].
  assert (He : existingStockOf fd stocks = Some e').
  { unfold existingStockOf. now rewrite Hs. }
  destruct (reconcile_run api st stocks (or_introl Hs)) as [Est Elog].
  { fold fd. rewrite Hpf. discriminate. }
  { exact Hstocks. }
  subst st'. rewrite Est, Elog. fold fd.
  rewrite Hpf, (decide_without_product fd stocks st e' He Hp).
  repeat split.
Qed.

Lemma C10_stock_id_alone_witness :
  let st' := stateOf (checkExistingStock (backend [1] [stock101])
                        (filled "101" "" "20")) in
  st' = {| formData := {| stockId := "101"; productId := ""; quantity := "20" |};
           error := ""; productError := ""; loading := false;
           currentStock := None; stockIdExists := true |}
  /\ renderProductError st' = None
  /\ renderStockPanel st' = None
  /\ renderError st' = None
  /\ logOf (checkExistingStock (backend [1] [stock101]) (filled "101" "" "20"))
     = [GET_stocks 1 100].
Proof.
  apply (C10_stock_id_alone (backend [1] [stock101]) (filled "101" "" "20")
           [stock101] stock101); try reflexivity.
  now left.
Defined.

(** ** The input guard (lines 98-110) *)

(** The guard returns without storing whenever [parseInt] of the new
    non-empty text is [NaN] or below zero. *)
Lemma input_guard_rejects (st : State) (name value : string) :
  isField name = true -> value <> "" ->
  JS.parseInt value = JS.NaN
  \/ (exists n, JS.parseInt value = JS.Finite n /\ n < 0)
  \/ JS.parseInt value = JS.Infinity true ->
  handleInputChange name value st = (tt, st, []).
Proof.
  intros Hn Hv Hbad. unfold handleInputChange.
  rewrite Hn. apply String.eqb_neq in Hv. rewrite Hv. cbn [negb andb].
  destruct Hbad as [-> | [(n & -> & Hneg) | ->]]; cbn [JS.isNaN JS.lt orb].
  - reflexivity.
  - apply Z.ltb_lt in Hneg. rewrite Hneg. reflexivity.
  - reflexivity.
Qed.

Lemma withField_parses (name value : string) (fd : FormData) :
  fieldsParse fd -> (value <> "" -> nonnegativeParse value) ->
  fieldsParse (withField name value fd).
Proof.
  intros (Hs & Hp & Hq) Hv. unfold withField.
  destruct (String.eqb name "stockId");
    [| destruct (String.eqb name "productId");
       [| destruct (String.eqb name "quantity")]];
    repeat split; cbn [stockId productId quantity]; assumption.
Qed.

(** Whatever is typed, every non-empty field stored afterwards parses as a
    non-negative integer. *)
Lemma input_keeps_fields_parsing (st : State) (name value : string) :
  fieldsParse (formData st) ->
  fieldsParse (formData (stateOf (handleInputChange name value st))).
Proof.
  intros Hinv. unfold handleInputChange.
  destruct (isField name) eqn:Hn; cbn [andb].
  - destruct (String.eqb value "") eqn:Hv; cbn [negb].
    + apply String.eqb_eq in Hv. subst value.
      apply withField_parses; [exact Hinv | intros H; now elim H].
    + destruct (JS.parseInt value) as [| n | [|]] eqn:Hparse;
        cbn [JS.isNaN JS.lt orb]; try exact Hinv.
      * destruct (n <? 0) eqn:Hneg; [exact Hinv |].
        apply withField_parses; [exact Hinv |].
        intros _. left. exists n. split; [exact Hparse |].
        apply Z.ltb_ge in Hneg. exact Hneg.
      * apply withField_parses; [exact Hinv |]. intros _. now right.
  - unfold isField in Hn. unfold stateOf, setFormData, modify, withField.
    cbn [fst snd formData].
    destruct (String.eqb name "stockId"); [discriminate |].
    destruct (String.eqb name "productId"); [discriminate |].
    destruct (String.eqb name "quantity"); [discriminate |].
    exact Hinv.
Qed.

Lemma typed_fields_parse (changes : list (string * string)) :
  fieldsParse
    (formData (fold_left (fun st c => stateOf (handleInputChange (fst c) (snd c) st))
                 changes initialState)).
Proof.
  assert (G : forall st, fieldsParse (formData st) ->
    fieldsParse
      (formData (fold_left (fun st c => stateOf (handleInputChange (fst c) (snd c) st))
                   changes st))).
  { induction changes as [| c cs IH]; intros st Hst; [exact Hst |].
    cbn [fold_left]. apply IH. now apply input_keeps_fields_parsing. }
  apply G. repeat split; intros H; now elim H.
Qed.

(** C8 (the code at the failing input).  The negative text ["-0.5"] passes
    the guard on each of the three fields: [parseInt] reads it as zero,
    which is neither [NaN] nor below zero, and the text is stored. *)
Theorem C8_negative_fraction_stored :
  JS.parseInt "-0.5" = JS.Finite 0
  /\ stockId (formData (stateOf (handleInputChange "stockId" "-0.5" initialState)))
     = "-0.5"
  /\ productId (formData (stateOf (handleInputChange "productId" "-0.5" initialState)))
     = "-0.5"
  /\ quantity (formData (stateOf (handleInputChange "quantity" "-0.5" initialState)))
     = "-0.5"
  /\ stateOf (handleInputChange "quantity" "-0.5" initialState) <> initialState.
Proof.
  repeat split; discriminate.
Qed.

(** ** The debounce (lines 94-96) *)

Module DebounceFacts.
Import Debounce.

Lemma deps_unchanged_iff (a b : FormData) :
  depsChanged a b = false <-> stockId a = stockId b /\ productId a = productId b.
Proof.
  unfold depsChanged. rewrite orb_false_iff, !negb_false_iff, !String.eqb_eq.
  reflexivity.
Qed.

(** After the cleanup no timer is pending. *)
Lemma cleanup_clears (m : Mounted) :
  timers m = [] \/ (exists t, timers m = [t] /\ cleanup m = Some (timer_id t)) ->
  timers (runCleanup m) = [].
Proof.
  intros [Ht | (t & Ht & Hc)]; unfold runCleanup.
  - destruct (cleanup m); [unfold clearTimeout; cbn [timers] |]; now rewrite Ht.
  - rewrite Hc. unfold clearTimeout. cbn [timers]. rewrite Ht.
    cbn [filter]. now rewrite Nat.eqb_refl.
Qed.

Lemma inv_pending (m : Mounted) :
  Inv m ->
  timers m = [] \/ (exists t, timers m = [t] /\ cleanup m = Some (timer_id t)).
Proof.
  intros ([Ht | (t & Ht & Hc & _)] & _); [now left | right; now exists t].
Qed.

Lemma cleanup_keeps (m : Mounted) :
  ui (runCleanup m) = ui m /\ now (runCleanup m) = now m
  /\ next_id (runCleanup m) = next_id m
  /\ scheduled (runCleanup m) = scheduled m /\ ran (runCleanup m) = ran m.
Proof. unfold runCleanup. destruct (cleanup m); repeat split. Qed.

(** Replacing the state without touching a dependency keeps the invariant. *)
Lemma inv_same_deps (st' : State) (m : Mounted) :
  Inv m -> depsChanged (formData (ui m)) (formData st') = false ->
  Inv {| ui := st'; now := now m; next_id := next_id m; timers := timers m;
         cleanup := cleanup m; scheduled := scheduled m; ran := ran m |}.
Proof.
  intros (Ht & Hrest) Hd. split; [| exact Hrest]. cbn [timers cleanup scheduled ui].
  destruct Ht as [Ht | (t & Ht & Hc & Hin & Hmax & Hcap)]; [now left | right].
  exists t. repeat split; try assumption.
  apply deps_unchanged_iff in Hd, Hcap. apply deps_unchanged_iff.
  destruct Hd, Hcap. split; congruence.
Qed.

(** Setting a timer when none is pending keeps the invariant. *)
Lemma inv_effect (m : Mounted) :
  timers m = [] ->
  (forall t, In t (scheduled m) ->
     (timer_id t < next_id m)%nat /\ (due t <= now m + delay)%nat) ->
  (forall t, In t (ran m) -> (due t <= now m)%nat) ->
  (forall t1 t2, In t1 (ran m) -> In t2 (scheduled m) ->
     (timer_id t1 < timer_id t2)%nat -> (due t1 + delay <= due t2)%nat) ->
  Inv (runEffect m).
Proof.
  intros Ht Hs Hr Hw. unfold Inv, runEffect.
  cbn [timers cleanup scheduled ran ui now next_id timer_id due captured].
  rewrite Ht. cbn [app]. split; [right; eexists; split; [reflexivity |] |].
  - cbn [timer_id captured]. repeat split.
    + apply in_or_app. right. now left.
    + intros t2 Hin. apply in_app_or in Hin as [Hin | [<- | []]].
      * destruct (Hs t2 Hin). lia.
      * cbn [timer_id]. lia.
    + apply deps_unchanged_iff. split; reflexivity.
  - split; [| split].
    + intros t Hin. apply in_app_or in Hin as [Hin | [<- | []]].
      * destruct (Hs t Hin). lia.
      * cbn [timer_id due]. lia.
    + exact Hr.
    + intros t1 t2 H1 H2 Hlt. apply in_app_or in H2 as [H2 | [<- | []]].
      * now apply Hw.
      * cbn [due]. specialize (Hr t1 H1). lia.
Qed.

Lemma inv_mount : Inv mount.
Proof.
  apply inv_effect; cbn [timers scheduled ran]; try reflexivity;
    intros; contradiction.
Qed.

Lemma inv_render (st' : State) (m : Mounted) : Inv m -> Inv (render st' m).
Proof.
  intros Hinv. unfold render.
  destruct (depsChanged (formData (ui m)) (formData st')) eqn:Hd.
  - set (m' := {| ui := st'; now := now m; next_id := next_id m;
                  timers := timers m; cleanup := cleanup m;
                  scheduled := scheduled m; ran := ran m |}).
    assert (Hclear : timers (runCleanup m') = []).
    { apply cleanup_clears. exact (inv_pending m Hinv). }
    destruct (cleanup_keeps m') as (_ & Hn & Hid & Hsch & Hran).
    destruct Hinv as (_ & Hs & Hr & Hw).
    apply inv_effect; [exact Hclear | | |]; rewrite ?Hn, ?Hid, ?Hsch, ?Hran;
      assumption.
  - now apply inv_same_deps.
Qed.

Lemma fire_keeps_formData (api : Api) (ts : list Timer) (st : State) :
  formData (fold_left (fire api) ts st) = formData st.
Proof.
  revert st. induction ts as [| t ts IH]; intros st; [reflexivity |].
  cbn [fold_left]. now rewrite IH.
Qed.

Lemma inv_elapse (api : Api) (d : nat) (m : Mounted) :
  Inv m -> Inv (elapse api d m).
Proof.
  intros (Ht & Hs & Hr & Hw). unfold Inv, elapse.
  cbn [timers cleanup scheduled ran ui now next_id].
  assert (Hnew : forall t, In t (filter (fun t => Nat.leb (due t) (now m + d)) (timers m))
                   -> In t (timers m) /\ (due t <= now m + d)%nat).
  { intros t Hin. apply filter_In in Hin as [Hin Hle].
    split; [exact Hin | now apply Nat.leb_le]. }
  split; [| split; [| split]].
  - destruct Ht as [Ht | (t & Ht & Hc & Hin & Hmax & Hcap)]; [left; now rewrite Ht |].
    rewrite Ht. cbn [filter].
    destruct (Nat.leb (due t) (now m + d)); cbn [negb]; [now left | right].
    exists t. repeat split; assumption.
  - intros t Hin. destruct (Hs t Hin). split; lia.
  - intros t Hin. apply in_app_or in Hin as [Hin | Hin].
    + specialize (Hr t Hin). lia.
    + now apply Hnew.
  - intros t1 t2 H1 H2 Hlt. apply in_app_or in H1 as [H1 | H1].
    + now apply Hw.
    + apply Hnew in H1 as [H1 _].
      destruct Ht as [Ht | (t & Ht & _ & _ & Hmax & _)];
        [rewrite Ht in H1; contradiction |].
      rewrite Ht in H1. destruct H1 as [<- | []].
      specialize (Hmax t2 H2). lia.
Qed.

Lemma inv_step (api : Api) (e : Event) (m : Mounted) : Inv m -> Inv (step api e m).
Proof.
  destruct e; cbn [step]; [apply inv_render | apply inv_render | apply inv_elapse].
Qed.

Lemma inv_run (api : Api) (es : list Event) (m : Mounted) :
  Inv m -> Inv (run api es m).
Proof.
  revert m. induction es as [| e es IH]; intros m Hm; [exact Hm |].
  cbn [run fold_left]. apply IH. now apply inv_step.
Qed.

End DebounceFacts.

(** C9.  In every state the event loop reaches from the mount: a change
    that alters the stock id or the product id leaves exactly one pending
    timer, the new one, due 500 ms after the change and holding the new
    form data, so whatever was pending has been cancelled; of two previews
    scheduled less than 500 ms apart the earlier one has not run, in any
    reachable state; and a pending preview left alone until it is due does
    run: its callback is the reconciliation, on the current stock id and
    product id. *)
Theorem C9_debounce (api : Api) (es : list Debounce.Event) :
  let m := Debounce.run api es Debounce.mount in
  (forall name value,
      let st' := stateOf (handleInputChange name value (Debounce.ui m)) in
      Debounce.depsChanged (formData (Debounce.ui m)) (formData st') = true ->
      Debounce.timers (Debounce.step api (Debounce.Change name value) m)
      = [{| Debounce.timer_id := Debounce.next_id m;
            Debounce.due := (Debounce.now m + 500)%nat;
            Debounce.captured := formData st' |}])
  /\ (forall t1 t2,
        In t1 (Debounce.scheduled m) -> In t2 (Debounce.scheduled m) ->
        (Debounce.timer_id t1 < Debounce.timer_id t2)%nat ->
        (Debounce.due t2 < Debounce.due t1 + 500)%nat ->
        ~ In t1 (Debounce.ran m))
  /\ (forall t d,
        In t (Debounce.timers m) ->
        (Debounce.due t <= Debounce.now m + d)%nat ->
        In t (Debounce.ran (Debounce.step api (Debounce.Elapse d) m))
        /\ Debounce.timers (Debounce.step api (Debounce.Elapse d) m) = []
        /\ Debounce.ui (Debounce.step api (Debounce.Elapse d) m)
           = Debounce.fire api (Debounce.ui m) t
        /\ stockId (Debounce.captured t) = stockId (formData (Debounce.ui m))
        /\ productId (Debounce.captured t) = productId (formData (Debounce.ui m))).
Proof.
  intros m.
  assert (Hinv : Debounce.Inv m)
    by (apply DebounceFacts.inv_run, DebounceFacts.inv_mount).
  split; [| split].
  - intros name value st' Hd. cbn [Debounce.step]. unfold Debounce.render.
    fold st'. rewrite Hd. unfold Debounce.runEffect.
    cbn [Debounce.timers].
    rewrite DebounceFacts.cleanup_clears
      by (exact (DebounceFacts.inv_pending m Hinv)).
    destruct (DebounceFacts.cleanup_keeps
                {| Debounce.ui := st'; Debounce.now := Debounce.now m;
                   Debounce.next_id := Debounce.next_id m;
                   Debounce.timers := Debounce.timers m;
                   Debounce.cleanup := Debounce.cleanup m;
                   Debounce.scheduled := Debounce.scheduled m;
                   Debounce.ran := Debounce.ran m |})
      as (Hu & Hn & Hid & _).
    rewrite Hu, Hn, Hid. reflexivity.
  - intros t1 t2 H1 H2 Hlt Hwin Hran.
    destruct Hinv as (_ & _ & _ & Hw).
    specialize (Hw t1 t2 Hran H2 Hlt). unfold Debounce.delay in Hw. lia.
  - intros t d Hin Hdue.
    destruct Hinv as ([Ht | (t0 & Ht & _ & _ & _ & Hcap)] & _);
      [rewrite Ht in Hin; contradiction |].
    rewrite Ht in Hin. destruct Hin as [<- | []].
    cbn [Debounce.step]. unfold Debounce.elapse.
    cbn [Debounce.ran Debounce.timers Debounce.ui]. rewrite Ht. cbn [filter].
    apply Nat.leb_le in Hdue. rewrite Hdue. cbn [negb].
    apply DebounceFacts.deps_unchanged_iff in Hcap. destruct Hcap as [Hc1 Hc2].
    repeat split; try assumption.
    apply in_or_app. right. now left.
Qed.

Lemma C9_debounce_witness :
  let api := backend [1] [stock101] in
  let burst := [Debounce.Change "stockId" "1"; Debounce.Elapse 200;
                Debounce.Change "stockId" "10"] in
  let t1 := {| Debounce.timer_id := 1; Debounce.due := 500;
               Debounce.captured := {| stockId := "1"; productId := "";
                                       quantity := "" |} |} in
  let t2 := {| Debounce.timer_id := 2; Debounce.due := 700;
               Debounce.captured := {| stockId := "10"; productId := "";
                                       quantity := "" |} |} in
  Debounce.timers (Debounce.run api burst Debounce.mount) = [t2]
  /\ ~ In t1 (Debounce.ran (Debounce.run api (burst ++ [Debounce.Elapse 1000])
                              Debounce.mount))
  /\ In t2 (Debounce.ran (Debounce.run api (burst ++ [Debounce.Elapse 500])
                            Debounce.mount)).
Proof.
  cbv zeta. split; [| split].
  - apply (proj1 (C9_debounce (backend [1] [stock101])
                    [Debounce.Change "stockId" "1"; Debounce.Elapse 200])
             "stockId" "10").
    reflexivity.
  - apply (proj1 (proj2 (C9_debounce (backend [1] [stock101])
                           ([Debounce.Change "stockId" "1"; Debounce.Elapse 200;
                             Debounce.Change "stockId" "10"]
                            ++ [Debounce.Elapse 1000])))
             _ {| Debounce.timer_id := 2; Debounce.due := 700;
                  Debounce.captured := {| stockId := "10"; productId := "";
                                          quantity := "" |} |}).
    + cbn. tauto.
    + cbn. tauto.
    + cbn. lia.
    + cbn. lia.
  - apply (proj2 (proj2 (C9_debounce (backend [1] [stock101])
                           [Debounce.Change "stockId" "1"; Debounce.Elapse 200;
                            Debounce.Change "stockId" "10"]))
             _ 500%nat).
    + cbn. tauto.
    + cbn. lia.
Defined.

(** ** The scenarios of the specification, run on the component *)

Example scenario_top_up :
  outcome (stateOf (checkExistingStock (backend [1] [stock101])
                      (filled "101" "1" "20")))
  = Update 101 50 (JS.Finite 20) (JS.Finite 70).
Proof. reflexivity. Qed.

Example scenario_create :
  outcome (stateOf (checkExistingStock (backend [1] []) (filled "200" "1" "10")))
  = Create {| StockData.id := JS.Finite 200; StockData.product_id := JS.Finite 1;
              StockData.quantity := JS.Finite 10 |}.
Proof. reflexivity. Qed.

Example scenario_product_bound :
  outcome (stateOf (checkExistingStock (backend [1] [stock101])
                      (filled "102" "1" "")))
  = Rejected "Product ID 1 already has Stock ID 101".
Proof. reflexivity. Qed.

Example scenario_unknown_product :
  outcome (stateOf (checkExistingStock (backend [1] [stock101])
                      (filled "101" "999" "5")))
  = Rejected "Product ID does not exist".
Proof. reflexivity. Qed.

(** The text shown while a top-up is previewed is the panel's, not the
    message kept in [error]. *)
Example top_up_message_not_rendered :
  renderError (stateOf (checkExistingStock (backend [1] [stock101])
                          (filled "101" "1" "20"))) = None
  /\ submitLabel (stateOf (checkExistingStock (backend [1] [stock101])
                             (filled "101" "1" "20"))) = "Add to Stock".
Proof. split; reflexivity. Qed.

(** * Further properties of the component *)

(** ** The run of [checkExistingStock] by cases *)

Lemma decide_by_verdict (fd : FormData) (stocks : list Stock.t) (st : State) :
  decideOnListing fd stocks st
  = (tt, applyVerdict fd (verdictOnListing fd stocks) st, []).
Proof.
  unfold verdictOnListing. run_act.
  destruct (existingStockOf fd stocks) as [e |];
    destruct (productStockOf fd stocks) as [p |]; run_act;
    repeat match goal with
           | |- context [if ?c then _ else _] => destruct c eqn:?; run_act
           end;
    reflexivity.
Qed.

Lemma run_by_verdict (api : Api) (st : State) :
  checkExistingStock api st
  = (tt, applyVerdict (formData st) (verdict api (formData st)) st,
     requestsOf api (formData st)).
Proof.
  unfold verdict, requestsOf, verdictAfterProduct.
  destruct (JS.truthy (productId (formData st))) eqn:Hp.
  - rewrite andb_false_r.
    destruct (products_get api (productId (formData st))) as [[p |] | []] eqn:Hq.
    + rewrite (product_found_run api st p Hp Hq).
      destruct (stocks_get api 1 100) as [stocks | u] eqn:Hs.
      * rewrite (listing_fetched_run api _ st stocks Hs), decide_by_verdict.
        reflexivity.
      * unfold checkStockInformation. run_act. rewrite Hs. reflexivity.
    + now rewrite (product_not_found_run api st Hp (or_introl Hq)).
    + now rewrite (product_not_found_run api st Hp (or_intror Hq)).
  - destruct (JS.truthy (stockId (formData st))) eqn:Hsid; cbn [negb andb].
    + rewrite (no_product_id_run api st Hsid Hp).
      destruct (stocks_get api 1 100) as [stocks | u] eqn:Hs.
      * rewrite (listing_fetched_run api _ st stocks Hs), decide_by_verdict.
        reflexivity.
      * unfold checkStockInformation. run_act. rewrite Hs. reflexivity.
    + run_act. rewrite Hsid, Hp. reflexivity.
Qed.

Lemma applied_formData (fd : FormData) (v : Verdict) (st : State) :
  formData (applyVerdict fd v st) = formData st
  /\ loading (applyVerdict fd v st) = loading st.
Proof. destruct v; split; reflexivity. Qed.

Lemma verdict_reads_ids (api : Api) (fd1 fd2 : FormData) :
  stockId fd1 = stockId fd2 -> productId fd1 = productId fd2 ->
  verdict api fd1 = verdict api fd2
  /\ requestsOf api fd1 = requestsOf api fd2
  /\ forall v st, applyVerdict fd1 v st = applyVerdict fd2 v st.
Proof.
  intros Hs Hp.
  unfold verdict, requestsOf, verdictAfterProduct, verdictOnListing,
    existingStockOf, productStockOf.
  rewrite Hs, Hp. repeat split.
  intros v st. destruct v; cbn [applyVerdict]; rewrite ?Hs, ?Hp; reflexivity.
Qed.

(** X5.  Whatever the collaborator answers, a run of [checkExistingStock]
    leaves the form data and the loading flag as they were, issues only
    read requests (no POST and no callback), and issues no request at all
    exactly when the stock id and the product id are both empty. *)
Theorem preview_only_reads (api : Api) (st : State) :
  formData (stateOf (checkExistingStock api st)) = formData st
  /\ loading (stateOf (checkExistingStock api st)) = loading st
  /\ forallb isGet (logOf (checkExistingStock api st)) = true
  /\ (logOf (checkExistingStock api st) = []
      <-> stockId (formData st) = "" /\ productId (formData st) = "").
Proof.
  rewrite run_by_verdict. cbn [stateOf logOf fst snd].
  destruct (applied_formData (formData st) (verdict api (formData st)) st)
    as [Hf Hl].
  split; [exact Hf | split; [exact Hl |]].
  unfold requestsOf.
  destruct (stockId (formData st)) as [| c1 s1];
    destruct (productId (formData st)) as [| c2 s2]; cbn [JS.truthy negb andb].
  - split; [reflexivity | split; [now split | reflexivity]].
  - destruct (products_get api (String c2 s2)) as [[p |] | u];
      (split; [reflexivity | split; [discriminate | intros [_ H]; discriminate]]).
  - split; [reflexivity | split; [discriminate | intros [H _]; discriminate]].
  - destruct (products_get api (String c2 s2)) as [[p |] | u];
      (split; [reflexivity | split; [discriminate | intros [H _]; discriminate]]).
Qed.

(** X6.  A second run of [checkExistingStock] against the same answers
    changes nothing: it leaves the state of the first run and repeats the
    same requests. *)
Theorem preview_idempotent (api : Api) (st : State) :
  stateOf (checkExistingStock api (stateOf (checkExistingStock api st)))
  = stateOf (checkExistingStock api st)
  /\ logOf (checkExistingStock api (stateOf (checkExistingStock api st)))
     = logOf (checkExistingStock api st).
Proof.
  rewrite !run_by_verdict. cbn [stateOf logOf fst snd].
  rewrite (proj1 (applied_formData _ _ _)).
  split; [| reflexivity].
  destruct (verdict api (formData st)); reflexivity.
Qed.

(** X7.  The run does not read the quantity: typing a quantity before the
    run or after it gives the same state, and the same requests are
    issued. *)
Theorem preview_ignores_quantity (api : Api) (st : State) (value : string) :
  stateOf (checkExistingStock api (stateOf (handleInputChange "quantity" value st)))
  = stateOf (handleInputChange "quantity" value (stateOf (checkExistingStock api st)))
  /\ logOf (checkExistingStock api (stateOf (handleInputChange "quantity" value st)))
     = logOf (checkExistingStock api st).
Proof.
  rewrite !run_by_verdict. cbn [stateOf logOf fst snd].
  unfold handleInputChange. cbn [isField String.eqb Ascii.eqb Bool.eqb orb andb].
  destruct (negb (value =? "")%string); cbn [andb];
    [destruct (JS.isNaN (JS.parseInt value) || JS.lt (JS.parseInt value) 0) |];
    cbv beta iota delta [ret setFormData modify]; cbn [fst snd];
    try (split; reflexivity).
  all: destruct (verdict_reads_ids api (withField "quantity" value (formData st))
                   (formData st) eq_refl eq_refl) as (Hv & Hr & Ha).
  all: unfold stateOf; cbn [fst snd formData]; rewrite Hv, Hr, Ha;
    split; [| reflexivity].
  all: destruct (verdict api (formData st)); reflexivity.
Qed.

(** X8.  When the run reaches a fetched listing, [stockIdExists] ends true
    exactly when some record of the listing carries the number that the
    stock id field parses to. *)
Theorem stockIdExists_tells_presence (api : Api) (st : State)
    (stocks : list Stock.t) :
  let fd := formData st in
  JS.truthy (stockId fd) = true \/ JS.truthy (productId fd) = true ->
  (JS.truthy (productId fd) = true ->
   exists p, products_get api (productId fd) = Resolved (Some p)) ->
  stocks_get api 1 100 = Resolved stocks ->
  (stockIdExists (stateOf (checkExistingStock api st)) = true
   <-> exists s, In s stocks
                 /\ JS.strict_eq (Stock.id s) (JS.parseInt (stockId fd)) = true).
Proof.
  intros fd Hsome Hprod Hstocks.
  destruct (reconcile_run api st stocks Hsome Hprod Hstocks) as [Est _].
  rewrite Est, decide_by_verdict. cbn [stateOf fst snd]. fold fd.
  assert (E : stockIdExists (applyVerdict fd (verdictOnListing fd stocks) st)
              = match existingStockOf fd stocks with
                | Some _ => true | None => false end).
  { unfold verdictOnListing.
    destruct (existingStockOf fd stocks) as [e |];
      destruct (productStockOf fd stocks) as [p |];
      repeat match goal with
             | |- context [if ?c then _ else _] => destruct c
             end; reflexivity. }
  rewrite E. unfold existingStockOf.
  destruct (JS.truthy (stockId fd)) eqn:Hs.
  - destruct (find _ stocks) as [e |] eqn:Hfind.
    + split; [intros _ | reflexivity].
      apply find_some in Hfind. now exists e.
    + split; [discriminate |]. intros (s & Hin & Hid).
      rewrite (find_none _ _ Hfind s Hin) in Hid. discriminate.
  - split; [discriminate |]. intros (s & _ & Hid).
    rewrite (strict_eq_truthy _ _ Hid) in Hs. discriminate.
Qed.

Lemma stockIdExists_tells_presence_witness :
  stockIdExists (stateOf (checkExistingStock (backend [1; 2] [stock101; stock102])
                            (filled "102" "" ""))) = true
  <-> exists s, In s [stock101; stock102]
                /\ JS.strict_eq (Stock.id s) (JS.parseInt "102") = true.
Proof.
  apply (stockIdExists_tells_presence (backend [1; 2] [stock101; stock102])
           (filled "102" "" "") [stock101; stock102]).
  - left; reflexivity.
  - discriminate.
  - reflexivity.
Defined.

(** X9.  A run that raises a rejection where none was pending clears the
    current stock and does not touch the message cell: the rejection is
    rendered, and so is whatever message an earlier run had left. *)
Theorem new_rejection_keeps_message (api : Api) (st : State) :
  let st' := stateOf (checkExistingStock api st) in
  productError st = "" ->
  JS.truthy (productError st') = true ->
  error st' = error st
  /\ currentStock st' = None
  /\ renderProductError st' = Some (productError st')
  /\ renderError st' = (if JS.truthy (error st) then Some (error st) else None).
Proof.
  intros st' H0 H1. subst st'. revert H1.
  rewrite run_by_verdict. cbn [stateOf fst snd].
  destruct (verdict api (formData st)); cbn [applyVerdict productError];
    rewrite ?H0; cbn [JS.truthy]; try discriminate; intros H1;
    unfold renderProductError, renderError;
    cbn [productError currentStock error]; rewrite ?H1; repeat split.
Qed.

Lemma new_rejection_keeps_message_witness :
  let st := stateOf (checkExistingStock (backend [1] [stock101])
                       (filled "101" "1" "20")) in
  let st2 := stateOf (handleInputChange "productId" "7" st) in
  let st' := stateOf (checkExistingStock (backend [1] [stock101]) st2) in
  error st' = "Current stock quantity: 50. New quantity will be added to this."
  /\ currentStock st' = None
  /\ renderProductError st' = Some "Product ID does not exist"
  /\ renderError st'
     = Some "Current stock quantity: 50. New quantity will be added to this.".
Proof.
  exact (new_rejection_keeps_message (backend [1] [stock101])
           (stateOf (handleInputChange "productId" "7"
              (stateOf (checkExistingStock (backend [1] [stock101])
                          (filled "101" "1" "20")))))
           eq_refl eq_refl).
Defined.

(** ** Typing into the form (lines 98-110) *)

(** X1.  For one of the three fields and a non-empty text, the change is
    stored exactly when [parseInt] of the text is a non-negative integer:
    then the named field takes the text and nothing else changes; otherwise
    the state is left as it was.  No request is issued either way. *)
Theorem input_stored_iff_parses (st : State) (name value : string) :
  isField name = true -> value <> "" ->
  (nonnegativeParse value ->
   handleInputChange name value st
   = (tt,
      {| formData := withField name value (formData st); error := error st;
         productError := productError st; loading := loading st;
         currentStock := currentStock st; stockIdExists := stockIdExists st |},
      []))
  /\ (~ nonnegativeParse value -> handleInputChange name value st = (tt, st, [])).
Proof.
  intros Hn Hv. unfold handleInputChange, nonnegativeParse. rewrite Hn.
  apply String.eqb_neq in Hv. rewrite Hv. cbn [negb andb].
  destruct (JS.parseInt value) as [| n | [|]] eqn:Hparse;
    cbn [JS.isNaN JS.lt orb].
  - split; [intros [(k & Hk & _) | Hk]; discriminate | reflexivity].
  - destruct (n <? 0) eqn:Hneg.
    + split; [intros [(k & Hk & Hpos) | Hk]; [| discriminate] | reflexivity].
      injection Hk as <-. apply Z.ltb_lt in Hneg. lia.
    + split; [reflexivity |]. intros Hnot. exfalso. apply Hnot.
      left. exists n. split; [reflexivity | now apply Z.ltb_ge].
  - split; [intros [(k & Hk & _) | Hk]; discriminate | reflexivity].
  - split; [reflexivity |]. intros Hnot. exfalso. apply Hnot. now right.
Qed.

Lemma input_stored_iff_parses_witness :
  handleInputChange "stockId" "12abc" initialState = (tt, filled "12abc" "" "", [])
  /\ handleInputChange "stockId" "-5" initialState = (tt, initialState, []).
Proof.
  split.
  - apply (proj1 (input_stored_iff_parses initialState "stockId" "12abc"
                    eq_refl ltac:(discriminate))).
    left. exists 12. split; [reflexivity | lia].
  - apply (proj2 (input_stored_iff_parses initialState "stockId" "-5"
                    eq_refl ltac:(discriminate))).
    intros [(n & Hn & Hpos) | Hn]; [| discriminate]. injection Hn as <-. lia.
Defined.

(** A text of 309 nines is stored: [parseInt] makes [Infinity] of it, which
    is neither [NaN] nor below zero. *)
Example overlong_digits_stored :
  quantity (formData (stateOf (handleInputChange "quantity"
                                 (String.concat "" (repeat "9" 309)) initialState)))
  = String.concat "" (repeat "9" 309).
Proof. vm_compute. reflexivity. Qed.

Lemma withField_others (name value : string) (fd : FormData) :
  (name <> "stockId" -> stockId (withField name value fd) = stockId fd)
  /\ (name <> "productId" -> productId (withField name value fd) = productId fd)
  /\ (name <> "quantity" -> quantity (withField name value fd) = quantity fd).
Proof.
  unfold withField.
  destruct (String.eqb_spec name "stockId") as [-> | H1];
    [| destruct (String.eqb_spec name "productId") as [-> | H2];
       [| destruct (String.eqb_spec name "quantity") as [-> | H3]]];
    cbn [stockId productId quantity]; repeat split; intros H;
    try reflexivity; try discriminate; now elim H.
Qed.

Lemma input_cells (st : State) (name value : string) :
  handleInputChange name value st = (tt, st, [])
  \/ handleInputChange name value st
     = (tt,
        {| formData := withField name value (formData st); error := error st;
           productError := productError st; loading := loading st;
           currentStock := currentStock st; stockIdExists := stockIdExists st |},
        []).
Proof.
  unfold handleInputChange.
  destruct (isField name && negb (value =? "")%string);
    [destruct (JS.isNaN (JS.parseInt value) || JS.lt (JS.parseInt value) 0) |];
    [left | right | right]; reflexivity.
Qed.

(** X2.  Whatever is typed into whichever input, [handleInputChange] issues
    no request, leaves the two messages, the loading flag, the current
    stock and [stockIdExists] as they were, and leaves every field other
    than the named one as it was. *)
Theorem input_touches_one_field (st : State) (name value : string) :
  let st' := stateOf (handleInputChange name value st) in
  logOf (handleInputChange name value st) = []
  /\ error st' = error st /\ productError st' = productError st
  /\ loading st' = loading st /\ currentStock st' = currentStock st
  /\ stockIdExists st' = stockIdExists st
  /\ (name <> "stockId" -> stockId (formData st') = stockId (formData st))
  /\ (name <> "productId" -> productId (formData st') = productId (formData st))
  /\ (name <> "quantity" -> quantity (formData st') = quantity (formData st)).
Proof.
  intros st'. subst st'.
  destruct (withField_others name value (formData st)) as (H1 & H2 & H3).
  destruct (input_cells st name value) as [-> | ->];
    cbn [stateOf logOf fst snd formData error productError loading
         currentStock stockIdExists];
    repeat split; auto.
Qed.

(** ** Submission (lines 112-160) *)

Lemma truthy_empty_text (s : string) : JS.truthy s = false -> s = "".
Proof. destruct s; [reflexivity | discriminate]. Qed.

Lemma formValid_fields (st : State) :
  formValid st = true <->
  JS.truthy (stockId (formData st)) = true
  /\ JS.truthy (productId (formData st)) = true
  /\ JS.truthy (quantity (formData st)) = true
  /\ JS.truthy (productError st) = false.
Proof.
  unfold formValid. rewrite !andb_true_iff, negb_true_iff. tauto.
Qed.

(** [handleSubmit] by cases: a missing field, a pending rejection, and the
    three ways the write can end. *)
Lemma submit_by_cases (api : Api) (st : State) :
  handleSubmit api st =
    if negb (JS.truthy (stockId (formData st)))
       || negb (JS.truthy (productId (formData st)))
       || negb (JS.truthy (quantity (formData st)))
    then (tt,
          {| formData := formData st; error := "All fields are required";
             productError := productError st; loading := loading st;
             currentStock := currentStock st; stockIdExists := stockIdExists st |},
          [])
    else if JS.truthy (productError st) then (tt, st, [])
    else
      match stocks_post api (postBody st) with
      | Resolved (Some data) =>
          (tt,
           {| formData := emptyForm; error := "";
              productError := productError st; loading := false;
              currentStock := None; stockIdExists := stockIdExists st |},
           [POST_stocks (postBody st); OnSubmit data; OnClose])
      | Resolved None =>
          (tt,
           {| formData := formData st; error := error st;
              productError := productError st; loading := false;
              currentStock := currentStock st; stockIdExists := stockIdExists st |},
           [POST_stocks (postBody st)])
      | Thrown msg =>
          (tt,
           {| formData := formData st;
              error := JS.or_else (match msg with Some m => m | None => "" end)
                         "Error processing your request";
              productError := productError st; loading := false;
              currentStock := currentStock st; stockIdExists := stockIdExists st |},
           [POST_stocks (postBody st)])
      end.
Proof.
  unfold postBody. run_act.
  destruct (negb (JS.truthy (stockId (formData st)))
            || negb (JS.truthy (productId (formData st)))
            || negb (JS.truthy (quantity (formData st)))); run_act;
    [reflexivity |].
  destruct (JS.truthy (productError st)); run_act; [reflexivity |].
  destruct (stocks_post api _) as [[data |] | msg]; run_act;
    [destruct (previousQuantity data) | |]; reflexivity.
Qed.

(** X10.  With the three fields filled and a rejection pending,
    [handleSubmit] does nothing at all: the state is the one it found, no
    message is set and no request is issued; the submit button is disabled
    in that state. *)
Theorem pending_rejection_blocks_submit (api : Api) (st : State) :
  JS.truthy (stockId (formData st)) = true ->
  JS.truthy (productId (formData st)) = true ->
  JS.truthy (quantity (formData st)) = true ->
  JS.truthy (productError st) = true ->
  handleSubmit api st = (tt, st, []) /\ submitDisabled st = true.
Proof.
  intros Hs Hp Hq He. rewrite submit_by_cases, Hs, Hp, Hq, He. cbn [negb orb].
  split; [reflexivity |]. unfold submitDisabled.
  destruct (productError st); [discriminate |]. cbn. apply orb_true_r.
Qed.

Lemma pending_rejection_blocks_submit_witness :
  let st := stateOf (handleInputChange "quantity" "3"
              (stateOf (checkExistingStock (backend [1] [stock101])
                          (filled "102" "1" "")))) in
  handleSubmit (backend [1] [stock101]) st = (tt, st, [])
  /\ submitDisabled st = true.
Proof.
  apply (pending_rejection_blocks_submit (backend [1] [stock101])
           (stateOf (handleInputChange "quantity" "3"
              (stateOf (checkExistingStock (backend [1] [stock101])
                          (filled "102" "1" "")))))); reflexivity.
Defined.

(** X11.  When the form is valid and the write answers with data,
    [handleSubmit] posts the parsed fields once, hands the data to
    [onSubmit], calls [onClose], and leaves the form emptied with no
    current stock, loading off and the message cell empty: the success
    message set at lines 129-131 is overwritten at line 141 before the
    function returns. *)
Theorem successful_submit_resets (api : Api) (st : State) (data : PostData) :
  formValid st = true ->
  stocks_post api (postBody st) = Resolved (Some data) ->
  handleSubmit api st
  = (tt,
     {| formData := emptyForm; error := ""; productError := "";
        loading := false; currentStock := None;
        stockIdExists := stockIdExists st |},
     [POST_stocks (postBody st); OnSubmit data; OnClose])
  /\ renderError (stateOf (handleSubmit api st)) = None.
Proof.
  intros Hv Hpost. apply formValid_fields in Hv as (Hs & Hp & Hq & He).
  rewrite submit_by_cases, Hs, Hp, Hq, He, Hpost. cbn [negb orb].
  apply truthy_empty_text in He. rewrite He. split; reflexivity.
Qed.

(** X12.  When the form is valid and the write fails, [handleSubmit] keeps
    the form data, the current stock and the rejection cell, turns loading
    off, calls neither callback, and sets a message that is never empty:
    the server's text, or "Error processing your request" when there is
    none or it is empty. *)
Theorem failed_submit_keeps_form (api : Api) (st : State) (msg : option string) :
  formValid st = true ->
  stocks_post api (postBody st) = Thrown msg ->
  let shown := match msg with
               | Some (String c m) => String c m
               | _ => "Error processing your request"
               end in
  handleSubmit api st
  = (tt,
     {| formData := formData st; error := shown;
        productError := productError st; loading := false;
        currentStock := currentStock st; stockIdExists := stockIdExists st |},
     [POST_stocks (postBody st)])
  /\ JS.truthy shown = true.
Proof.
  intros Hv Hpost shown. apply formValid_fields in Hv as (Hs & Hp & Hq & He).
  rewrite submit_by_cases, Hs, Hp, Hq, He, Hpost. cbn [negb orb].
  subst shown. destruct msg as [[| c m] |]; split; reflexivity.
Qed.

Lemma successful_submit_resets_witness :
  handleSubmit (writeAnswering (Resolved (Some toppedUp))) (filled "101" "1" "20")
  = (tt, initialState,
     [POST_stocks {| StockData.id := JS.Finite 101; StockData.product_id := JS.Finite 1;
                     StockData.quantity := JS.Finite 20 |};
      OnSubmit toppedUp; OnClose])
  /\ renderError (stateOf (handleSubmit (writeAnswering (Resolved (Some toppedUp)))
                             (filled "101" "1" "20"))) = None.
Proof.
  apply (successful_submit_resets (writeAnswering (Resolved (Some toppedUp)))
           (filled "101" "1" "20") toppedUp); reflexivity.
Defined.

Lemma failed_submit_keeps_form_witness :
  handleSubmit (writeAnswering (Thrown (Some ""))) (filled "101" "1" "20")
  = (tt,
     {| formData := {| stockId := "101"; productId := "1"; quantity := "20" |};
        error := "Error processing your request"; productError := "";
        loading := false; currentStock := None; stockIdExists := false |},
     [POST_stocks {| StockData.id := JS.Finite 101; StockData.product_id := JS.Finite 1;
                     StockData.quantity := JS.Finite 20 |}])
  /\ JS.truthy "Error processing your request" = true.
Proof.
  apply (failed_submit_keeps_form (writeAnswering (Thrown (Some "")))
           (filled "101" "1" "20") (Some "")); reflexivity.
Defined.

(** X13.  Whatever the state and the collaborator's answer, [handleSubmit]
    issues a POST exactly when the three fields are filled and no rejection
    is pending, never more than one, and never a read request; when it
    posts it returns with loading off, and otherwise it leaves the loading
    flag alone. *)
Theorem submit_posts_iff_valid (api : Api) (st : State) :
  existsb isPost (logOf (handleSubmit api st)) = formValid st
  /\ (List.length (filter isPost (logOf (handleSubmit api st))) <= 1)%nat
  /\ existsb isGet (logOf (handleSubmit api st)) = false
  /\ loading (stateOf (handleSubmit api st))
     = (if formValid st then false else loading st).
Proof.
  rewrite submit_by_cases. unfold formValid.
  destruct (JS.truthy (stockId (formData st)));
    destruct (JS.truthy (productId (formData st)));
    destruct (JS.truthy (quantity (formData st)));
    cbn [negb orb andb]; try (repeat split; cbn; lia).
  destruct (JS.truthy (productError st)); cbn [negb];
    [repeat split; cbn; lia |].
  destruct (stocks_post api (postBody st)) as [[data |] | msg];
    repeat split; cbn; lia.
Qed.

(** ** Invariants of the component under its events *)

Lemma submit_formData (api : Api) (st : State) :
  formData (stateOf (handleSubmit api st)) = formData st
  \/ formData (stateOf (handleSubmit api st)) = emptyForm.
Proof.
  rewrite submit_by_cases.
  repeat match goal with
         | |- context [if ?c then _ else _] => destruct c
         end;
    try (left; reflexivity).
  destruct (stocks_post api (postBody st)) as [[data |] | msg];
    [right | left | left]; reflexivity.
Qed.

Lemma emptyForm_parses : fieldsParse emptyForm.
Proof. repeat split; intros H; now elim H. Qed.

Lemma step_keeps_fields_parsing (st : State) (e : UiEvent) :
  fieldsParse (formData st) -> fieldsParse (formData (uiStep st e)).
Proof.
  intros H. destruct e as [name value | | api fd | api]; cbn [uiStep].
  - now apply input_keeps_fields_parsing.
  - exact emptyForm_parses.
  - exact H.
  - destruct (submit_formData api st) as [-> | ->];
      [exact H | exact emptyForm_parses].
Qed.

Lemma run_keeps_fields_parsing (es : list UiEvent) (st : State) :
  fieldsParse (formData st) -> fieldsParse (formData (uiRun es st)).
Proof.
  revert st. induction es as [| e es IH]; intros st H; [exact H |].
  cbn [uiRun fold_left]. apply IH. now apply step_keeps_fields_parsing.
Qed.

(** X3.  From the initial state, through any sequence of typing, opening,
    preview runs (on any captured form data, with any answers) and
    submissions, what [parseInt] makes of every non-empty field of the form
    is never [NaN] and never negative: it is a non-negative integer, or
    [Infinity] for a run of digits beyond the range of a double. *)
Theorem fields_always_parse (es : list UiEvent) :
  fieldsParse (formData (uiRun es initialState)).
Proof.
  apply run_keeps_fields_parsing. exact emptyForm_parses.
Qed.

Lemma nonnegativeParse_number (v : string) :
  nonnegativeParse v -> nonnegativeNumber (JS.parseInt v).
Proof. intros [(n & -> & Hn) | ->]; [exact Hn | exact I]. Qed.

(** X14.  In any state the component can reach, each of the three numbers
    of a POST that [handleSubmit] issues is a non-negative integer or
    [Infinity]: never [NaN] and never a negative number. *)
Theorem posted_numbers_are_nonnegative (es : list UiEvent) (api : Api)
    (body : StockData.t) :
  In (POST_stocks body) (logOf (handleSubmit api (uiRun es initialState))) ->
  nonnegativeNumber (StockData.id body)
  /\ nonnegativeNumber (StockData.product_id body)
  /\ nonnegativeNumber (StockData.quantity body).
Proof.
  set (st := uiRun es initialState).
  assert (Hparse : fieldsParse (formData st))
    by (apply run_keeps_fields_parsing; exact emptyForm_parses).
  destruct Hparse as (Hs & Hp & Hq).
  rewrite submit_by_cases.
  destruct (JS.truthy (stockId (formData st))) eqn:Es;
    destruct (JS.truthy (productId (formData st))) eqn:Ep;
    destruct (JS.truthy (quantity (formData st))) eqn:Eq;
    cbn [negb orb logOf snd]; try contradiction.
  assert (Hbody : nonnegativeNumber (StockData.id (postBody st))
                  /\ nonnegativeNumber (StockData.product_id (postBody st))
                  /\ nonnegativeNumber (StockData.quantity (postBody st))).
  { unfold postBody. cbn [StockData.id StockData.product_id StockData.quantity].
    repeat split; apply nonnegativeParse_number;
      [apply Hs | apply Hp | apply Hq]; intros E;
      [rewrite E in Es | rewrite E in Ep | rewrite E in Eq]; discriminate. }
  destruct (JS.truthy (productError st)); cbn [logOf snd]; [contradiction |].
  destruct (stocks_post api (postBody st)) as [[data |] | msg]; cbn [logOf snd];
    intros [H | H]; try (injection H as <-; exact Hbody);
    try contradiction;
    destruct H as [H | [H | []]]; discriminate.
Qed.

Lemma posted_numbers_are_nonnegative_witness :
  nonnegativeNumber (JS.Finite 0)
  /\ nonnegativeNumber (JS.Finite 12)
  /\ nonnegativeNumber (JS.Infinity false).
Proof.
  apply (posted_numbers_are_nonnegative
           [Typed "stockId" "-0.5"; Typed "productId" "12abc";
            Typed "quantity" (String.concat "" (repeat "9" 309));
            Typed "quantity" "-3"]
           (writeAnswering (Thrown None))
           {| StockData.id := JS.Finite 0; StockData.product_id := JS.Finite 12;
              StockData.quantity := JS.Infinity false |}).
  vm_compute. left. reflexivity.
Defined.

Lemma step_keeps_exclusion (st : State) (e : UiEvent) :
  productError st = "" \/ currentStock st = None ->
  productError (uiStep st e) = "" \/ currentStock (uiStep st e) = None.
Proof.
  intros H. destruct e as [name value | | api fd | api]; cbn [uiStep].
  - destruct (input_cells st name value) as [-> | ->]; exact H.
  - left. reflexivity.
  - unfold landPreview. cbn [productError currentStock].
    rewrite run_by_verdict. cbn [stateOf fst snd formData].
    destruct (verdict api fd); cbn [applyVerdict productError currentStock];
      try exact H; try (right; reflexivity); left; reflexivity.
  - rewrite submit_by_cases.
    repeat match goal with
           | |- context [if ?c then _ else _] => destruct c
           end; try exact H.
    destruct (stocks_post api (postBody st)) as [[data |] | msg];
      cbn [stateOf fst snd productError currentStock];
      try exact H; right; reflexivity.
Qed.

(** X4.  From the initial state, through any sequence of typing, opening,
    preview runs and submissions, a rejection and a current stock are
    never held together: the rejection text and the current-stock panel
    are never both rendered. *)
Theorem rejection_excludes_current_stock (es : list UiEvent) :
  let st := uiRun es initialState in
  (productError st = "" \/ currentStock st = None)
  /\ (renderProductError st = None \/ renderStockPanel st = None).
Proof.
  intros st.
  assert (H : productError st = "" \/ currentStock st = None).
  { subst st.
    assert (G : forall s, productError s = "" \/ currentStock s = None ->
                productError (uiRun es s) = "" \/ currentStock (uiRun es s) = None).
    { induction es as [| e es IH]; intros s Hs; [exact Hs |].
      cbn [uiRun fold_left]. apply IH. now apply step_keeps_exclusion. }
    apply G. left. reflexivity. }
  split; [exact H |].
  unfold renderProductError, renderStockPanel.
  destruct H as [-> | ->]; [left | right]; reflexivity.
Qed.

(** ** More on the debounce (lines 94-96) *)

Module DebounceMore.
Import Debounce.

Lemma deps_same (fd : FormData) : depsChanged fd fd = false.
Proof. apply DebounceFacts.deps_unchanged_iff. split; reflexivity. Qed.

(** A render with the state it already has changes nothing. *)
Lemma render_same (m : Mounted) : render (ui m) m = m.
Proof. unfold render. rewrite deps_same. destruct m; reflexivity. Qed.

(** The timers after a render: the old ones, or the new one alone. *)
Lemma render_timers (st' : State) (m : Mounted) :
  Inv m ->
  (timers (render st' m) = timers m /\ ran (render st' m) = ran m
   /\ now (render st' m) = now m /\ next_id (render st' m) = next_id m
   /\ scheduled (render st' m) = scheduled m)
  \/ (exists t, timers (render st' m) = [t]
                /\ timer_id t = next_id m /\ due t = (now m + delay)%nat
                /\ ran (render st' m) = ran m /\ now (render st' m) = now m
                /\ next_id (render st' m) = S (next_id m)
                /\ scheduled (render st' m) = (scheduled m ++ [t])%list).
Proof.
  intros Hinv. unfold render.
  destruct (depsChanged (formData (ui m)) (formData st')); [right | left].
  - set (m' := {| ui := st'; now := now m; next_id := next_id m;
                  timers := timers m; cleanup := cleanup m;
                  scheduled := scheduled m; ran := ran m |}).
    assert (Hclear : timers (runCleanup m') = [])
      by (apply DebounceFacts.cleanup_clears;
          exact (DebounceFacts.inv_pending m Hinv)).
    destruct (DebounceFacts.cleanup_keeps m') as (_ & Hn & Hid & Hsch & Hran).
    unfold runEffect. cbn [timers ran now next_id scheduled].
    rewrite Hclear, Hn, Hid, Hsch, Hran. cbn [app].
    eexists. repeat split.
  - repeat split.
Qed.

End DebounceMore.

Module LoopFacts.
Import Debounce.

Lemma loop_inv_step (api : Api) (e : Loop.Event) (m : Mounted) :
  Inv m -> Inv (Loop.step api e m).
Proof.
  destruct e as [e' | post]; cbn [Loop.step];
    [apply DebounceFacts.inv_step | apply DebounceFacts.inv_render].
Qed.

Lemma loop_inv_run (api : Api) (es : list Loop.Event) (m : Mounted) :
  Inv m -> Inv (Loop.run api es m).
Proof.
  revert m. induction es as [| e es IH]; intros m Hm; [exact Hm |].
  cbn [Loop.run fold_left]. apply IH. now apply loop_inv_step.
Qed.

Lemma distinct_render (st' : State) (m : Mounted) :
  Inv m -> Loop.distinctIds m -> Loop.distinctIds (render st' m).
Proof.
  intros Hinv [Hnd Hids]. unfold Loop.distinctIds.
  destruct (DebounceMore.render_timers st' m Hinv)
    as [(Ht & Hr & _ & Hn & Hs) | (t & Ht & Hid & _ & Hr & _ & Hn & Hs)];
    rewrite Ht, Hr, Hn, Hs; [now split |].
  assert (Hran : forall x, In x (ran m) ->
            (timer_id x < next_id m)%nat /\ In x (scheduled m)).
  { intros x Hx. apply Hids. apply in_or_app. now left. }
  split.
  - rewrite map_app in Hnd |- *. cbn [map].
    apply NoDup_app_remove_r in Hnd.
    apply NoDup_app; [exact Hnd | repeat constructor; intros [] |].
    intros a Ha [<- | []]. apply in_map_iff in Ha as (x & Hx & Hin).
    destruct (Hran x Hin) as [Hlt _]. rewrite Hx, Hid in Hlt. lia.
  - intros x Hx. apply in_app_or in Hx as [Hx | [<- | []]].
    + destruct (Hran x Hx) as [Hlt Hin]. split; [lia |].
      apply in_or_app. now left.
    + split; [rewrite Hid; lia |]. apply in_or_app. right. now left.
Qed.

Lemma distinct_elapse (api : Api) (d : nat) (m : Mounted) :
  Inv m -> Loop.distinctIds m -> Loop.distinctIds (elapse api d m).
Proof.
  intros Hinv Hd. unfold Loop.distinctIds, elapse in *.
  cbn [ran timers next_id scheduled].
  destruct Hinv as ([Ht | (t & Ht & _)] & _); rewrite Ht in *; cbn [filter].
  - rewrite ?app_nil_r in *. exact Hd.
  - destruct (Nat.leb (due t) (now m + d)); cbn [negb];
      rewrite ?app_nil_r in *; exact Hd.
Qed.

Lemma distinct_step (api : Api) (e : Loop.Event) (m : Mounted) :
  Inv m -> Loop.distinctIds m -> Loop.distinctIds (Loop.step api e m).
Proof.
  intros Hinv Hd. destruct e as [[name value | | d] | post];
    cbn [Loop.step step];
    [apply distinct_render | apply distinct_render | apply distinct_elapse
     | apply distinct_render]; assumption.
Qed.

Lemma distinct_run (api : Api) (es : list Loop.Event) (m : Mounted) :
  Inv m -> Loop.distinctIds m -> Loop.distinctIds (Loop.run api es m).
Proof.
  revert m. induction es as [| e es IH]; intros m Hinv Hd; [exact Hd |].
  cbn [Loop.run fold_left].
  apply IH; [now apply loop_inv_step | now apply distinct_step].
Qed.

Lemma distinct_mount : Loop.distinctIds mount.
Proof.
  split.
  - cbn. repeat constructor. intros [].
  - intros t [<- | []]. cbn. split; [lia | now left].
Qed.

End LoopFacts.

(** X15.  In every state the event loop reaches from the mount, through
    input changes, openings, elapsing time and submissions, at most one
    preview is pending; a pending one is the one the cleanup would cancel
    and is due at most 500 ms from now. *)
Theorem one_preview_pending (api : Api) (es : list Loop.Event) :
  let m := Loop.run api es Debounce.mount in
  (List.length (Debounce.timers m) <= 1)%nat
  /\ forall t, In t (Debounce.timers m) ->
       Debounce.cleanup m = Some (Debounce.timer_id t)
       /\ (Debounce.due t <= Debounce.now m + 500)%nat.
Proof.
  intros m.
  pose proof (LoopFacts.loop_inv_run api es Debounce.mount DebounceFacts.inv_mount)
    as Hinv.
  fold m in Hinv.
  destruct Hinv as ([Ht | (t0 & Ht & Hc & Hin & _)] & Hs & _).
  - rewrite Ht. split; [cbn; lia | intros t []].
  - rewrite Ht. split; [cbn; lia |].
    intros t [<- | []]. split; [exact Hc |].
    destruct (Hs t0 Hin) as [_ H]. unfold Debounce.delay in H. exact H.
Qed.

(** A submission answered with data empties the form, and the effect
    schedules a new preview in place of the pending one. *)
Example submission_reschedules :
  let api := writeAnswering (Resolved (Some toppedUp)) in
  let m := Loop.run api
             [Loop.Edit (Debounce.Change "stockId" "101");
              Loop.Edit (Debounce.Change "productId" "1");
              Loop.Edit (Debounce.Change "quantity" "20");
              Loop.Edit (Debounce.Elapse 100); Loop.Submit api]
             Debounce.mount in
  Debounce.timers m
  = [{| Debounce.timer_id := 3; Debounce.due := 600;
        Debounce.captured := emptyForm |}].
Proof. reflexivity. Qed.

(** X16.  A change of an input other than the stock id and the product id,
    the quantity among them, never touches the debounce: nothing is
    cancelled and nothing is scheduled. *)
Theorem other_inputs_do_not_reschedule (api : Api) (m : Debounce.Mounted)
    (name value : string) :
  name <> "stockId" -> name <> "productId" ->
  let m' := Debounce.step api (Debounce.Change name value) m in
  Debounce.timers m' = Debounce.timers m
  /\ Debounce.cleanup m' = Debounce.cleanup m
  /\ Debounce.scheduled m' = Debounce.scheduled m
  /\ Debounce.ran m' = Debounce.ran m
  /\ Debounce.ui m' = stateOf (handleInputChange name value (Debounce.ui m)).
Proof.
  intros H1 H2 m'. subst m'. cbn [Debounce.step]. unfold Debounce.render.
  assert (Hd : Debounce.depsChanged (formData (Debounce.ui m))
                 (formData (stateOf (handleInputChange name value (Debounce.ui m))))
               = false).
  { apply DebounceFacts.deps_unchanged_iff.
    destruct (withField_others name value (formData (Debounce.ui m)))
      as (Hs & Hp & _).
    destruct (input_cells (Debounce.ui m) name value) as [-> | ->];
      cbn [stateOf fst snd formData]; split; auto using eq_sym. }
  rewrite Hd. repeat split.
Qed.

Lemma other_inputs_do_not_reschedule_witness :
  let m := Debounce.run (backend [1] [stock101])
             [Debounce.Change "stockId" "101"; Debounce.Elapse 100]
             Debounce.mount in
  let m' := Debounce.step (backend [1] [stock101])
              (Debounce.Change "quantity" "20") m in
  Debounce.timers m' = Debounce.timers m
  /\ Debounce.cleanup m' = Debounce.cleanup m
  /\ Debounce.scheduled m' = Debounce.scheduled m
  /\ Debounce.ran m' = Debounce.ran m
  /\ Debounce.ui m' = filled "101" "" "20".
Proof.
  apply (other_inputs_do_not_reschedule (backend [1] [stock101])
           (Debounce.run (backend [1] [stock101])
              [Debounce.Change "stockId" "101"; Debounce.Elapse 100]
              Debounce.mount)
           "quantity" "20"); discriminate.
Defined.

(** X17.  A change that the input guard rejects leaves the mounted
    component exactly as it was: the form, the pending preview and its due
    time are untouched, so a rejected keystroke does not restart the
    debounce window. *)
Theorem rejected_input_keeps_window (api : Api) (m : Debounce.Mounted)
    (name value : string) :
  isField name = true -> value <> "" ->
  JS.parseInt value = JS.NaN
  \/ (exists n, JS.parseInt value = JS.Finite n /\ n < 0)
  \/ JS.parseInt value = JS.Infinity true ->
  Debounce.step api (Debounce.Change name value) m = m.
Proof.
  intros Hn Hv Hbad. cbn [Debounce.step].
  rewrite (input_guard_rejects (Debounce.ui m) name value Hn Hv Hbad).
  apply DebounceMore.render_same.
Qed.

Lemma rejected_input_keeps_window_witness :
  Debounce.step (backend [1] [stock101]) (Debounce.Change "stockId" "-7")
    Debounce.mount = Debounce.mount.
Proof.
  apply (rejected_input_keeps_window (backend [1] [stock101]) Debounce.mount
           "stockId" "-7"); [reflexivity | discriminate |].
  right. left. exists (-7). split; [reflexivity | lia].
Defined.

(** X18.  In every state the event loop reaches from the mount, through
    input changes, openings, elapsing time and submissions, the timers
    whose callback was invoked have pairwise distinct ids, each of them was
    scheduled by the effect, and none of them is still pending. *)
Theorem previews_run_once (api : Api) (es : list Loop.Event) :
  let m := Loop.run api es Debounce.mount in
  NoDup (map Debounce.timer_id (Debounce.ran m))
  /\ (forall t, In t (Debounce.ran m) ->
        In t (Debounce.scheduled m) /\ ~ In t (Debounce.timers m)).
Proof.
  intros m.
  pose proof (LoopFacts.loop_inv_run api es Debounce.mount DebounceFacts.inv_mount)
    as Hinv.
  destruct (LoopFacts.distinct_run api es Debounce.mount
              DebounceFacts.inv_mount LoopFacts.distinct_mount) as [Hnd Hids].
  fold m in Hinv, Hnd, Hids. rewrite map_app in Hnd. split.
  - now apply NoDup_app_remove_r in Hnd.
  - intros t Hran. split.
    + apply Hids. apply in_or_app. now left.
    + intros Hpend.
      destruct (DebounceFacts.inv_pending m Hinv) as [Ht | (t0 & Ht & _)];
        rewrite Ht in *; [contradiction |].
      destruct Hpend as [<- | []]. cbn [map] in Hnd.
      apply NoDup_remove_2 in Hnd. apply Hnd. rewrite app_nil_r.
      now apply in_map.
Qed.

(** A run whose closure holds the current stock id and product id lands
    the same cells as a run on the current form. *)
Lemma stale_quantity_preview (api : Api) (st : State) (fd : FormData) :
  stockId fd = stockId (formData st) ->
  productId fd = productId (formData st) ->
  landPreview api fd st = stateOf (checkExistingStock api st).
Proof.
  intros Hs Hp.
  destruct (verdict_reads_ids api fd (formData st) Hs Hp) as (Hv & _ & Ha).
  unfold landPreview. rewrite !run_by_verdict.
  cbn [stateOf fst snd formData]. rewrite Hv, Ha. clear Hv Ha Hs Hp.
  destruct st as [fd0 e pe l cs sx]. cbn [formData].
  destruct (verdict api fd0); reflexivity.
Qed.

(** X19.  In every state the event loop reaches from the mount, through
    input changes, openings, elapsing time and submissions, the pending
    preview, although its closure may hold an older quantity, does when it
    fires what a run of [checkExistingStock] on the form as it is now would
    do: the same state results. *)
Theorem pending_preview_is_current (api apiNow : Api) (es : list Loop.Event)
    (t : Debounce.Timer) :
  let m := Loop.run api es Debounce.mount in
  In t (Debounce.timers m) ->
  Debounce.fire apiNow (Debounce.ui m) t
  = stateOf (checkExistingStock apiNow (Debounce.ui m)).
Proof.
  intros m Hin.
  pose proof (LoopFacts.loop_inv_run api es Debounce.mount DebounceFacts.inv_mount)
    as Hinv.
  fold m in Hinv.
  destruct Hinv as ([Ht | (t0 & Ht & _ & _ & _ & Hcap)] & _);
    rewrite Ht in Hin; [contradiction |].
  destruct Hin as [<- | []].
  apply DebounceFacts.deps_unchanged_iff in Hcap. destruct Hcap as [Hs Hp].
  exact (stale_quantity_preview apiNow (Debounce.ui m) (Debounce.captured t0)
           Hs Hp).
Qed.

Lemma pending_preview_is_current_witness :
  let api := backend [1] [stock101] in
  let m := Loop.run api
             [Loop.Edit (Debounce.Change "stockId" "101");
              Loop.Edit (Debounce.Change "productId" "1");
              Loop.Edit (Debounce.Elapse 100);
              Loop.Edit (Debounce.Change "quantity" "20")]
             Debounce.mount in
  Debounce.fire api (Debounce.ui m)
    {| Debounce.timer_id := 2; Debounce.due := 500;
       Debounce.captured := {| stockId := "101"; productId := "1";
                               quantity := "" |} |}
  = stateOf (checkExistingStock api (filled "101" "1" "20")).
Proof.
  apply (pending_preview_is_current (backend [1] [stock101])
           (backend [1] [stock101])
           [Loop.Edit (Debounce.Change "stockId" "101");
            Loop.Edit (Debounce.Change "productId" "1");
            Loop.Edit (Debounce.Elapse 100);
            Loop.Edit (Debounce.Change "quantity" "20")]).
  cbn. left. reflexivity.
Defined.

(** X20.  After a submission that the write answered with data, a second
    submission posts nothing, whatever the collaborator would answer: the
    form has been emptied, and the second call only sets "All fields are
    required". *)
Theorem no_second_post_after_success (api api2 : Api) (st : State)
    (data : PostData) :
  formValid st = true ->
  stocks_post api (postBody st) = Resolved (Some data) ->
  let st' := stateOf (handleSubmit api st) in
  logOf (handleSubmit api2 st') = []
  /\ error (stateOf (handleSubmit api2 st')) = "All fields are required".
Proof.
  intros Hv Hpost st'. subst st'.
  apply formValid_fields in Hv as (Hs & Hp & Hq & He).
  rewrite (submit_by_cases api), Hs, Hp, Hq, He, Hpost. cbn [negb orb stateOf fst snd].
  rewrite submit_by_cases. cbn. split; reflexivity.
Qed.

Lemma no_second_post_after_success_witness :
  let st' := stateOf (handleSubmit (writeAnswering (Resolved (Some toppedUp)))
                        (filled "101" "1" "20")) in
  logOf (handleSubmit (writeAnswering (Resolved (Some toppedUp))) st') = []
  /\ error (stateOf (handleSubmit (writeAnswering (Resolved (Some toppedUp))) st'))
     = "All fields are required".
Proof.
  apply (no_second_post_after_success
           (writeAnswering (Resolved (Some toppedUp)))
           (writeAnswering (Resolved (Some toppedUp)))
           (filled "101" "1" "20") toppedUp); reflexivity.
Defined.

(** X21.  After a submission whose write failed, the form is still valid
    and a retry posts the very same body: nothing of what was typed is
    lost. *)
Theorem retry_after_failure_posts_same (api api2 : Api) (st : State)
    (msg : option string) :
  formValid st = true ->
  stocks_post api (postBody st) = Thrown msg ->
  let st' := stateOf (handleSubmit api st) in
  formValid st' = true
  /\ hd_error (logOf (handleSubmit api2 st')) = Some (POST_stocks (postBody st)).
Proof.
  intros Hv Hpost st'. subst st'.
  pose proof Hv as Hv'.
  apply formValid_fields in Hv as (Hs & Hp & Hq & He).
  rewrite (submit_by_cases api), Hs, Hp, Hq, He, Hpost. cbn [negb orb stateOf fst snd].
  split; [exact Hv' |].
  rewrite submit_by_cases. cbn [formData productError]. rewrite Hs, Hp, Hq, He.
  cbn [negb orb]. unfold postBody at 1 2 3. cbn [formData].
  fold (postBody st).
  destruct (stocks_post api2 (postBody st)) as [[d |] | m]; reflexivity.
Qed.

Lemma retry_after_failure_posts_same_witness :
  let st' := stateOf (handleSubmit (writeAnswering (Thrown None))
                        (filled "101" "1" "20")) in
  formValid st' = true
  /\ hd_error (logOf (handleSubmit (writeAnswering (Resolved None)) st'))
     = Some (POST_stocks {| StockData.id := JS.Finite 101; StockData.product_id := JS.Finite 1;
                            StockData.quantity := JS.Finite 20 |}).
Proof.
  apply (retry_after_failure_posts_same (writeAnswering (Thrown None))
           (writeAnswering (Resolved None)) (filled "101" "1" "20") None);
    reflexivity.
Defined.
